(** * The Demucs separation endpoint: a model of [serve.py] and its properties

    The file embeds the request handler of
    [demucs-sagemaker-backend/serve.py] in Rocq.  Python values coming from
    the request body are JSON values, Python exceptions are values of an
    error type, and the handler is a function in a state-and-exception monad
    over the world it talks to (local disk, S3, the separation subprocess,
    standard output). *)

From Stdlib Require Import String Ascii List ZArith Bool Lia Permutation.
From Stdlib Require Import Floats.SpecFloat.
Import ListNotations.
Open Scope string_scope.
Set Warnings "-register-all".

(** ** Python strings

    The [str] methods and [os.path] functions that the handler calls, on
    Rocq strings. *)

Module Py.

(** [s.startswith(p)], returning what follows the prefix. *)
Fixpoint strip_prefix (p s : string) : option string :=
  match p, s with
  | EmptyString, _ => Some s
  | String a p', String b s' =>
      if Ascii.eqb a b then strip_prefix p' s' else None
  | String _ _, EmptyString => None
  end.

Definition startswith (p s : string) : bool :=
  match strip_prefix p s with Some _ => true | None => false end.

(** The scan of [s.replace(old, new)]: left to right, and after a match it
    resumes behind the matched text.  [fuel] bounds the number of steps;
    [old] is not empty (the handler passes a literal). *)
Fixpoint replace_from (fuel : nat) (old new s : string) : string :=
  match fuel with
  | O => s
  | S fuel' =>
      match strip_prefix old s with
      | Some rest => new ++ replace_from fuel' old new rest
      | None =>
          match s with
          | EmptyString => EmptyString
          | String c s' => String c (replace_from fuel' old new s')
          end
      end
  end.

Definition str_replace (old new s : string) : string :=
  replace_from (String.length s) old new s.

(** [s.split(sep, 1)]: at most one split, at the first occurrence of [sep]. *)
Fixpoint str_split1 (sep s : string) : list string :=
  match strip_prefix sep s with
  | Some rest => [EmptyString; rest]
  | None =>
      match s with
      | EmptyString => [EmptyString]
      | String c s' =>
          match str_split1 sep s' with
          | h :: t => String c h :: t
          | [] => [String c EmptyString]
          end
      end
  end.

(** [s.split(c)] for a one-character separator. *)
Fixpoint str_split_char (c : ascii) (s : string) : list string :=
  match s with
  | EmptyString => [EmptyString]
  | String a s' =>
      if Ascii.eqb a c then EmptyString :: str_split_char c s'
      else match str_split_char c s' with
           | h :: t => String a h :: t
           | [] => [String a EmptyString]
           end
  end.

Fixpoint str_mem (c : ascii) (chars : string) : bool :=
  match chars with
  | EmptyString => false
  | String a chars' => Ascii.eqb a c || str_mem c chars'
  end.

(** [s.rstrip(chars)]: drops the trailing characters that are in [chars]. *)
Fixpoint str_rstrip (chars s : string) : string :=
  match s with
  | EmptyString => EmptyString
  | String c s' =>
      match str_rstrip chars s' with
      | EmptyString =>
          if str_mem c chars then EmptyString else String c EmptyString
      | r => String c r
      end
  end.

(** [s.rfind(c)] for one character, [-1] when absent. *)
Fixpoint str_rfind (c : ascii) (s : string) : Z :=
  match s with
  | EmptyString => (-1)%Z
  | String a s' =>
      let r := str_rfind c s' in
      if (0 <=? r)%Z then (r + 1)%Z
      else if Ascii.eqb a c then 0%Z else (-1)%Z
  end.

Fixpoint str_drop (n : nat) (s : string) : string :=
  match n, s with
  | O, _ => s
  | S n', String _ s' => str_drop n' s'
  | S _, EmptyString => EmptyString
  end.

Fixpoint str_take (n : nat) (s : string) : string :=
  match n, s with
  | O, _ => EmptyString
  | S n', String c s' => String c (str_take n' s')
  | S _, EmptyString => EmptyString
  end.

Definition endswith_char (c : ascii) (s : string) : bool :=
  (str_rfind c s =? Z.of_nat (String.length s) - 1)%Z
  && negb (s =? EmptyString)%string.

(** [posixpath.basename]: [i = p.rfind('/') + 1; return p[i:]]. *)
Definition os_path_basename (p : string) : string :=
  let i := (str_rfind "/" p + 1)%Z in
  str_drop (Z.to_nat i) p.

(** One round of the loop of [posixpath.join]. *)
Definition join_step (path b : string) : string :=
  if startswith "/" b then b
  else if (path =? EmptyString)%string || endswith_char "/" path then path ++ b
  else path ++ "/" ++ b.

(** [posixpath.join(a, *p)]. *)
Definition os_path_join (a : string) (p : list string) : string :=
  fold_left join_step p a.

(** [PurePosixPath(s).name]: the last component of the path, where empty
    components and ["."] components do not count. *)
Definition path_name (s : string) : string :=
  let parts :=
    filter (fun x => negb (x =? EmptyString)%string && negb (x =? ".")%string)
           (str_split_char "/" s) in
  last parts EmptyString.

(** [PurePosixPath(s).stem], as pathlib has it up to Python 3.13:
    [i = name.rfind('.'); name[:i] if 0 < i < len(name) - 1 else name]. *)
Definition path_stem (s : string) : string :=
  let name := path_name s in
  let i := str_rfind "." name in
  if (0 <? i)%Z && (i <? Z.of_nat (String.length name) - 1)%Z
  then str_take (Z.to_nat i) name
  else name.

(** [sep.join(l)]. *)
Definition str_join (sep : string) (l : list string) : string :=
  String.concat sep l.

End Py.


(** ** Python values and exceptions *)

(** A value produced by [json.loads].  An object is kept as its list of
    members in document order. *)
Inductive json : Type :=
| JNull
| JBool (b : bool)
| JInt (n : Z)
| JFloat (f : spec_float)
| JStr (s : string)
| JArr (l : list json)
| JObj (members : list (string * json)).

(** Truth value of a Python object ([bool(v)]), as [not v] uses it. *)
Definition truthy (v : json) : bool :=
  match v with
  | JNull => false
  | JBool b => b
  | JInt n => negb (n =? 0)%Z
  | JFloat (S754_zero _) => false
  | JFloat _ => true
  | JStr s => negb (s =? EmptyString)%string
  | JArr [] => false
  | JArr _ => true
  | JObj [] => false
  | JObj _ => true
  end.

(** [type(v).__name__]. *)
Definition type_name (v : json) : string :=
  match v with
  | JNull => "NoneType"
  | JBool _ => "bool"
  | JInt _ => "int"
  | JFloat _ => "float"
  | JStr _ => "str"
  | JArr _ => "list"
  | JObj _ => "dict"
  end.

(** A raised exception: its class and [str(e)]. *)
Record Exn : Type := mkExn { exn_class : string; exn_str : string }.

Inductive outcome (A : Type) : Type :=
| Raised (e : Exn)
| Returned (a : A).
Arguments Raised {A} e.
Arguments Returned {A} a.

Definition nl : string := String "010"%char EmptyString.

Definition AttributeError (v : json) (attr : string) : Exn :=
  mkExn "AttributeError"
        ("'" ++ type_name v ++ "' object has no attribute '" ++ attr ++ "'").
Definition IndexError : Exn := mkExn "IndexError" "list index out of range".
Definition TypeError (msg : string) : Exn := mkExn "TypeError" msg.
Definition RuntimeError (msg : string) : Exn := mkExn "RuntimeError" msg.

(** The dict built by [json.loads] from the members of an object: a later
    member with the same name replaces an earlier one. *)
Fixpoint dict_lookup (k : string) (d : list (string * json)) : option json :=
  match d with
  | [] => None
  | (k', v) :: d' =>
      match dict_lookup k d' with
      | Some v' => Some v'
      | None => if (k' =? k)%string then Some v else None
      end
  end.

(** [data.get(key, default)]: defined on a dict only. *)
Definition py_get (data : json) (key : string) (default : json)
  : outcome json :=
  match data with
  | JObj d =>
      match dict_lookup key d with
      | Some v => Returned v
      | None => Returned default
      end
  | _ => Raised (AttributeError data "get")
  end.

(** [os.fspath(v)] as [os.path.join] applies it to each argument; the
    message is the one [posixpath.join] re-raises. *)
Definition fspath (v : json) : outcome string :=
  match v with
  | JStr s => Returned s
  | _ => Raised (TypeError
           ("join() argument must be str, bytes, or os.PathLike object, not '"
              ++ type_name v ++ "'"))
  end.

(** The text of [{v}] in an f-string, for a value that is a [str].  The
    handler interpolates [input_s3_uri] and [session_id] only behind
    [parse_s3_uri] and [os.path.join], which raise on every other type. *)
Definition fstr (v : json) : string :=
  match v with
  | JStr s => s
  | _ => EmptyString
  end.

(** [subprocess.CompletedProcess] with [capture_output=True, text=True]. *)
Record CompletedProcess : Type := mkCompleted {
  returncode : Z;
  proc_stdout : string;
  proc_stderr : string
}.

(** ** The world outside the handler

    The handler's collaborators: the S3 client, the subprocess, the local
    file system and the traceback formatter.  Each call takes the world and
    returns the world after it together with its outcome; a call that raises
    may still have changed the world. *)
Class Platform (World : Type) : Type := {
  s3_download_file :
    string -> string -> string -> World -> World * outcome unit;
  s3_upload_file :
    string -> string -> string -> World -> World * outcome unit;
  subprocess_run : list string -> World -> World * outcome CompletedProcess;
  os_makedirs : string -> World -> World * outcome unit;
  os_path_exists : string -> World -> bool;
  os_listdir : string -> World -> World * outcome (list string);
  os_remove : string -> World -> World * outcome unit;
  shutil_rmtree : string -> World -> World * outcome unit;
  sys_executable : string;
  traceback_format_exc : Exn -> string
}.

(** A call the handler made to the outside, with what came back. *)
Inductive Call : Type :=
| Download (bucket key path : string) (r : outcome unit)
| Makedirs (path : string) (r : outcome unit)
| Run (cmd : list string) (r : outcome CompletedProcess)
| Exists (path : string) (b : bool)
| Listdir (path : string) (r : outcome (list string))
| Upload (path bucket key : string) (r : outcome unit)
| Remove (path : string) (r : outcome unit)
| Rmtree (path : string) (r : outcome unit).

(** What the handler may expect of the deletions of a POSIX file system: a
    path that was deleted is absent, and deleting a tree creates nothing. *)
Class DiskLaws {World : Type} (P : Platform World) : Prop := {
  remove_absent :
    forall p w w',
      os_remove p w = (w', Returned tt) -> os_path_exists p w' = false;
  rmtree_absent :
    forall p w w',
      shutil_rmtree p w = (w', Returned tt) -> os_path_exists p w' = false;
  rmtree_frame :
    forall p q w w',
      shutil_rmtree q w = (w', Returned tt) ->
      os_path_exists p w = false -> os_path_exists p w' = false
}.

(** ** The handler's monad: state and exceptions *)

Section Handler.

Context {World : Type} `{P : Platform World}.

(** What a request can change: the world, the lines printed and the calls
    made, the latest first in both lists. *)
Record State : Type := mkState {
  world : World;
  stdout : list string;
  calls : list Call
}.

Definition M (A : Type) : Type := State -> State * outcome A.

Definition ret {A} (a : A) : M A := fun st => (st, Returned a).

Definition raise {A} (e : Exn) : M A := fun st => (st, Raised e).

Definition bind {A B} (m : M A) (k : A -> M B) : M B :=
  fun st =>
    match m st with
    | (st', Returned a) => k a st'
    | (st', Raised e) => (st', Raised e)
    end.

(** [try: m  except Exception as e: h e]. *)
Definition try_except {A} (m : M A) (h : Exn -> M A) : M A :=
  fun st =>
    match m st with
    | (st', Returned a) => (st', Returned a)
    | (st', Raised e) => h e st'
    end.

Definition lift {A} (r : outcome A) : M A := fun st => (st, r).

Definition print (line : string) : M unit :=
  fun st => (mkState (world st) (line :: stdout st) (calls st), Returned tt).

(** A call to the outside: run it on the world and record it. *)
Definition call {A} (f : World -> World * outcome A) (ev : outcome A -> Call)
  : M A :=
  fun st =>
    let (w, r) := f (world st) in
    (mkState w (stdout st) (ev r :: calls st), r).

Definition observe (f : World -> bool) (ev : bool -> Call) : M bool :=
  fun st =>
    let b := f (world st) in
    (mkState (world st) (stdout st) (ev b :: calls st), Returned b).

End Handler.

Declare Scope py_scope.
Delimit Scope py_scope with py.
Notation "x <- m ;; k" := (bind m (fun x => k))
  (at level 61, m at next level, right associativity) : py_scope.
Notation "' pat <- m ;; k" := (bind m (fun x => match x with pat => k end))
  (at level 61, pat pattern, m at next level, right associativity) : py_scope.
Notation "m ;; k" := (bind m (fun _ => k))
  (at level 61, right associativity) : py_scope.

(** ** The handler *)

Definition UPLOAD_DIR : string := "/tmp/uploads".
Definition OUTPUT_DIR : string := "/tmp/output".

(** A response: the JSON body given to [jsonify] and the HTTP status. *)
Definition Response : Type := (json * Z)%type.

(** [parse_s3_uri(uri)]:
    it removes the text [s3://] from [uri] with [str.replace], splits the
    rest once at [/] and returns [parts[0], parts[1]].
    A subscript outside the list raises [IndexError]; a value with no
    [replace] method raises [AttributeError]. *)
Definition parse_s3_uri (uri : json) : outcome (string * string) :=
  match uri with
  | JStr s =>
      let parts := Py.str_split1 "/" (Py.str_replace "s3://" EmptyString s) in
      match nth_error parts 0 with
      | None => Raised IndexError
      | Some p0 =>
          match nth_error parts 1 with
          | None => Raised IndexError
          | Some p1 => Returned (p0, p1)
          end
      end
  | _ => Raised (AttributeError uri "replace")
  end.

Section Invocations.

Context {World : Type} `{P : Platform World}.
Local Open Scope py_scope.

(** [cleanup_local_files(input_path, output_path)]. *)
Definition cleanup_local_files (input_path output_path : string) : M unit :=
  try_except
    (has_input <- observe (os_path_exists input_path) (Exists input_path) ;;
     (if has_input
      then call (os_remove input_path) (Remove input_path)
      else ret tt) ;;
     has_output <- observe (os_path_exists output_path) (Exists output_path) ;;
     (if has_output
      then call (shutil_rmtree output_path) (Rmtree output_path)
      else ret tt) ;;
     print "Cleaned up local files")
    (fun e => print ("Cleanup failed: " ++ exn_str e)).

(** The entry of [output_files] for one uploaded file. *)
Definition uploaded_entry (filename s3_uri : string) : json :=
  JObj [("filename", JStr filename); ("s3_uri", JStr s3_uri)].

(** The loop [for filename in os.listdir(separated_dir): ...] over the
    names the listing returned, [uploaded_files] being the list built so
    far. *)
Fixpoint upload_loop (separated_dir output_bucket output_prefix : string)
    (session_id : json) (filenames : list string) (uploaded_files : list json)
  : M (list json) :=
  match filenames with
  | [] => ret uploaded_files
  | filename :: rest =>
      let local_file := Py.os_path_join separated_dir [filename] in
      let s3_key :=
        Py.str_rstrip "/" output_prefix ++ "/" ++ fstr session_id
          ++ "/" ++ filename in
      print ("Uploading " ++ local_file ++ " -> s3://" ++ output_bucket
               ++ "/" ++ s3_key) ;;
      call (s3_upload_file local_file output_bucket s3_key)
           (Upload local_file output_bucket s3_key) ;;
      upload_loop separated_dir output_bucket output_prefix session_id rest
        (uploaded_files
           ++ [uploaded_entry filename
                 ("s3://" ++ output_bucket ++ "/" ++ s3_key)])
  end.

(** The command line of the separation tool. *)
Definition demucs_cmd (output_path local_input_path : string) : list string :=
  [sys_executable; "-m"; "demucs.separate";
   "-n"; "htdemucs";
   "--two-stems"; "vocals";
   "--name"; "htdemucs";
   "-o"; output_path;
   local_input_path].

Definition missing_fields_response : Response :=
  (JObj [("error", JStr "Missing input_s3_uri or output_s3_prefix")], 400%Z).

Definition success_response (session_id : json) (uploaded_files : list json)
  : Response :=
  (JObj [("status", JStr "success");
         ("session_id", session_id);
         ("output_files", JArr uploaded_files)], 200%Z).

Definition error_message (e : Exn) : string :=
  "Error: " ++ exn_str e ++ nl ++ traceback_format_exc e.

Definition error_response (e : Exn) : Response :=
  (JObj [("error", JStr (error_message e))], 500%Z).

(** The body of the [try] block of [invocations].  [loaded] is the outcome
    of [json.loads(request.data.decode("utf-8"))] on the request body. *)
Definition invocations_try (loaded : outcome json) : M Response :=
  data <- lift loaded ;;
  input_s3_uri <- lift (py_get data "input_s3_uri" JNull) ;;
  output_s3_prefix <- lift (py_get data "output_s3_prefix" JNull) ;;
  session_id <- lift (py_get data "session_id" (JStr "default")) ;;
  if negb (truthy input_s3_uri) || negb (truthy output_s3_prefix)
  then ret missing_fields_response
  else
    '(input_bucket, input_key) <- lift (parse_s3_uri input_s3_uri) ;;
    '(output_bucket, output_prefix) <- lift (parse_s3_uri output_s3_prefix) ;;
    let input_filename := Py.os_path_basename input_key in
    let local_input_path := Py.os_path_join UPLOAD_DIR [input_filename] in
    print ("Downloading " ++ fstr input_s3_uri ++ " -> " ++ local_input_path) ;;
    call (s3_download_file input_bucket input_key local_input_path)
         (Download input_bucket input_key local_input_path) ;;
    print ("Processing using Demucs for: " ++ input_filename) ;;
    session_dir <- lift (fspath session_id) ;;
    let output_path := Py.os_path_join OUTPUT_DIR [session_dir] in
    call (os_makedirs output_path) (Makedirs output_path) ;;
    let cmd := demucs_cmd output_path local_input_path in
    print ("Command: " ++ Py.str_join " " cmd) ;;
    result <- call (subprocess_run cmd) (Run cmd) ;;
    print ("STDOUT: " ++ proc_stdout result) ;;
    print ("STDERR: " ++ proc_stderr result) ;;
    (if negb (returncode result =? 0)%Z
     then raise (RuntimeError ("Demucs failed" ++ nl ++ proc_stderr result))
     else ret tt) ;;
    let separated_dir :=
      Py.os_path_join output_path ["htdemucs"; Py.path_stem input_filename] in
    found <- observe (os_path_exists separated_dir) (Exists separated_dir) ;;
    (if negb found
     then raise (RuntimeError "Output not found. Demucs path may be wrong.")
     else ret tt) ;;
    filenames <- call (os_listdir separated_dir) (Listdir separated_dir) ;;
    uploaded_files <-
      upload_loop separated_dir output_bucket output_prefix session_id
        filenames [] ;;
    cleanup_local_files local_input_path output_path ;;
    ret (success_response session_id uploaded_files).

(** [invocations()]: the [try] block and its [except Exception as e]. *)
Definition invocations (loaded : outcome json) : M Response :=
  try_except (invocations_try loaded)
    (fun e =>
       print (error_message e) ;;
       ret (error_response e)).

(** The state a request starts in: nothing printed, no call made. *)
Definition start (w : World) : State := mkState w [] [].

(** One request served in world [w]. *)
Definition serve (loaded : outcome json) (w : World)
  : State * outcome Response :=
  invocations loaded (start w).

End Invocations.

(** ** A simulated platform

    A small executable world to run the handler in: a local disk given by
    the paths of its files and directories, an S3 service given by its
    objects and the buckets that accept writes, a separation tool given by
    its exit code, its stderr text and the files it writes, and a list of
    paths the process may not delete. *)

Module Sim.

Record World : Type := mkWorld {
  files : list string;
  dirs : list string;
  objects : list (string * string);
  writable : list string;
  tool_exit : Z;
  tool_stderr : string;
  tool_outputs : list string;
  undeletable : list string
}.

Definition mem (x : string) (l : list string) : bool :=
  existsb (String.eqb x) l.

Definition add (x : string) (l : list string) : list string :=
  if mem x l then l else l ++ [x].

Definition has_object (b k : string) (w : World) : bool :=
  existsb (fun o => (fst o =? b)%string && (snd o =? k)%string) (objects w).

Definition with_disk (w : World) (fs ds : list string) : World :=
  mkWorld fs ds (objects w) (writable w) (tool_exit w) (tool_stderr w)
          (tool_outputs w) (undeletable w).

Definition exists_ (p : string) (w : World) : bool :=
  mem p (files w) || mem p (dirs w).

Definition download (b k p : string) (w : World) : World * outcome unit :=
  if has_object b k w
  then (with_disk w (add p (files w)) (dirs w), Returned tt)
  else (w, Raised (mkExn "ClientError" ("Not Found: " ++ b ++ "/" ++ k))).

Definition upload (p b k : string) (w : World) : World * outcome unit :=
  if negb (mem p (files w))
  then (w, Raised (mkExn "FileNotFoundError" ("No such file: " ++ p)))
  else if mem b (writable w)
  then (mkWorld (files w) (dirs w) (objects w ++ [(b, k)]) (writable w)
          (tool_exit w) (tool_stderr w) (tool_outputs w) (undeletable w),
        Returned tt)
  else (w, Raised (mkExn "S3UploadFailedError"
                     ("Failed to upload " ++ p ++ " to " ++ b ++ "/" ++ k))).

(** The tool reads the output root and the track from the end of its command
    line and, when it succeeds, writes [tool_outputs] under
    [<root>/htdemucs/<track name without extension>]. *)
Definition run (cmd : list string) (w : World)
  : World * outcome CompletedProcess :=
  let root := nth 10 cmd EmptyString in
  let track := nth 11 cmd EmptyString in
  let result := mkCompleted (tool_exit w) EmptyString (tool_stderr w) in
  if (tool_exit w =? 0)%Z
  then
    let model_dir := (root ++ "/htdemucs")%string in
    let track_dir := (model_dir ++ "/" ++ Py.path_stem track)%string in
    (with_disk w
       (fold_left (fun fs n => add (track_dir ++ "/" ++ n)%string fs)
                  (tool_outputs w) (files w))
       (add track_dir (add model_dir (dirs w))),
     Returned result)
  else (w, Returned result).

Definition makedirs (p : string) (w : World) : World * outcome unit :=
  (with_disk w (files w) (add p (dirs w)), Returned tt).

(** The name of [q] inside directory [d], when [q] lies directly in it. *)
Definition child_of (d q : string) : option string :=
  match Py.strip_prefix (d ++ "/") q with
  | Some name =>
      if (name =? EmptyString)%string || Py.str_mem "/" name
      then None
      else Some name
  | None => None
  end.

Fixpoint children (d : string) (paths : list string) : list string :=
  match paths with
  | [] => []
  | q :: rest =>
      match child_of d q with
      | Some name => name :: children d rest
      | None => children d rest
      end
  end.

Definition listdir (d : string) (w : World) : World * outcome (list string) :=
  if mem d (dirs w)
  then (w, Returned (children d (files w ++ dirs w)))
  else (w, Raised (mkExn "FileNotFoundError" ("No such directory: " ++ d))).

Definition remove (p : string) (w : World) : World * outcome unit :=
  if mem p (undeletable w)
  then (w, Raised (mkExn "PermissionError" ("Permission denied: " ++ p)))
  else if mem p (dirs w)
  then (w, Raised (mkExn "IsADirectoryError" ("Is a directory: " ++ p)))
  else if mem p (files w)
  then (with_disk w (filter (fun q => negb (q =? p)%string) (files w)) (dirs w),
        Returned tt)
  else (w, Raised (mkExn "FileNotFoundError" ("No such file: " ++ p))).

Definition outside (p q : string) : bool :=
  negb (q =? p)%string && negb (Py.startswith (p ++ "/") q).

Definition rmtree (p : string) (w : World) : World * outcome unit :=
  if mem p (undeletable w)
  then (w, Raised (mkExn "PermissionError" ("Permission denied: " ++ p)))
  else if mem p (files w)
  then (w, Raised (mkExn "NotADirectoryError" ("Not a directory: " ++ p)))
  else if mem p (dirs w)
  then (with_disk w (filter (outside p) (files w))
                    (filter (outside p) (dirs w)),
        Returned tt)
  else (w, Raised (mkExn "FileNotFoundError" ("No such file: " ++ p))).

Definition format_exc (e : Exn) : string :=
  "Traceback (most recent call last):" ++ nl
    ++ exn_class e ++ ": " ++ exn_str e ++ nl.

#[global] Instance platform : Platform World := {
  s3_download_file := download;
  s3_upload_file := upload;
  subprocess_run := run;
  os_makedirs := makedirs;
  os_path_exists := exists_;
  os_listdir := listdir;
  os_remove := remove;
  shutil_rmtree := rmtree;
  sys_executable := "/usr/bin/python3";
  traceback_format_exc := format_exc
}.

(** A container just started: the two staging directories exist, the input
    bucket holds one song, the output bucket accepts writes, and the tool
    succeeds and writes the two stems. *)
Definition fresh : World :=
  mkWorld [] ["/tmp/uploads"; "/tmp/output"]
          [("in", "songs/song.wav")] ["out"]
          0 EmptyString ["vocals.wav"; "no_vocals.wav"] [].

Definition with_tool (w : World) (code : Z) (err : string) : World :=
  mkWorld (files w) (dirs w) (objects w) (writable w) code err
          (tool_outputs w) (undeletable w).

Definition with_writable (w : World) (bs : list string) : World :=
  mkWorld (files w) (dirs w) (objects w) bs (tool_exit w) (tool_stderr w)
          (tool_outputs w) (undeletable w).


End Sim.

(** Request bodies used below, as [json.loads] returns them. *)
Definition body (input output : string) (session : string) : outcome json :=
  Returned (JObj [("input_s3_uri", JStr input);
                  ("output_s3_prefix", JStr output);
                  ("session_id", JStr session)]).

Definition good_body : outcome json :=
  body "s3://in/songs/song.wav" "s3://out/stems" "abc".

(** ** Vocabulary of the properties *)

(** The scheme that [parse_s3_uri] removes. *)
Definition scheme : string := "s3://".

(** [pat] occurs in [s]. *)
Definition occurs (pat s : string) : Prop :=
  exists a b, s = a ++ pat ++ b.

(** A text the scheme does not occur in. *)
Definition scheme_free (s : string) : Prop := ~ occurs scheme s.

(** The decomposition the interface describes, for comparison with
    [parse_s3_uri]: only a leading scheme is stripped, then the text is
    split at the first separator into bucket and key. *)
Definition parse_leading_scheme (uri : string) : option (string * string) :=
  let rest :=
    match Py.strip_prefix scheme uri with
    | Some r => r
    | None => uri
    end in
  match Py.str_split1 "/" rest with
  | [bucket; key] => Some (bucket, key)
  | _ => None
  end.

(** A URI without separator between bucket and key: nothing to split at
    once the scheme is removed. *)
Definition no_separator (uri : string) : Prop :=
  Py.str_mem "/" (Py.str_replace "s3://" EmptyString uri) = false.

(** The kinds of calls. *)
Inductive kind : Type :=
| KDownload | KMakedirs | KRun | KExists
| KListdir | KUpload | KRemove | KRmtree.

Definition kind_of (c : Call) : kind :=
  match c with
  | Download _ _ _ _ => KDownload
  | Makedirs _ _ => KMakedirs
  | Run _ _ => KRun
  | Exists _ _ => KExists
  | Listdir _ _ => KListdir
  | Upload _ _ _ _ => KUpload
  | Remove _ _ => KRemove
  | Rmtree _ _ => KRmtree
  end.

Definition cleanup_kind (k : kind) : bool :=
  match k with
  | KExists | KRemove | KRmtree => true
  | _ => false
  end.

(** The entry the loop appends for [filename]. *)
Definition entry_for (output_bucket output_prefix : string) (session_id : json)
    (filename : string) : json :=
  uploaded_entry filename
    ("s3://" ++ output_bucket ++ "/"
       ++ (Py.str_rstrip "/" output_prefix ++ "/" ++ fstr session_id
             ++ "/" ++ filename)).

(** The entry of [output_files] for one stem: its name and its URI, the
    output prefix taken without its trailing separators. *)
Definition stem_entry (bucket pre sid filename : string) : json :=
  JObj [("filename", JStr filename);
        ("s3_uri",
         JStr ("s3://" ++ bucket ++ "/" ++ Py.str_rstrip "/" pre ++ "/"
                 ++ sid ++ "/" ++ filename))].

Section Observations.

Context {World : Type} `{P : Platform World}.

(** The state a request ends in, and what the handler returns. *)
Definition final (loaded : outcome json) (w : World) : State :=
  fst (serve loaded w).

Definition response (loaded : outcome json) (w : World) : outcome Response :=
  snd (serve loaded w).

(** The HTTP status of the response, [0] if the handler raised. *)
Definition status (loaded : outcome json) (w : World) : Z :=
  match response loaded w with
  | Returned (_, code) => code
  | Raised _ => 0%Z
  end.

End Observations.

(** ** The rest of the module, and names for the handler's paths *)

(** The local path the input is downloaded to:
    [os.path.join(UPLOAD_DIR, os.path.basename(input_key))]. *)
Definition local_input_path (input_key : string) : string :=
  Py.os_path_join UPLOAD_DIR [Py.os_path_basename input_key].

(** The directory of one session: [os.path.join(OUTPUT_DIR, session_id)]. *)
Definition output_path (session_dir : string) : string :=
  Py.os_path_join OUTPUT_DIR [session_dir].

(** Where the handler looks for the stems:
    [os.path.join(output_path, "htdemucs", Path(input_filename).stem)]. *)
Definition separated_dir (session_dir input_key : string) : string :=
  Py.os_path_join (output_path session_dir)
    ["htdemucs"; Py.path_stem (Py.os_path_basename input_key)].

(** The key a stem is uploaded under:
    [f"{output_prefix.rstrip('/')}/{session_id}/{filename}"]. *)
Definition s3_key (output_prefix session_dir filename : string) : string :=
  Py.str_rstrip "/" output_prefix ++ "/" ++ session_dir ++ "/" ++ filename.

(** The upload of one stem, as the loop calls it. *)
Definition upload_call (session_dir input_key output_bucket output_prefix
                          filename : string) (r : outcome unit) : Call :=
  Upload (Py.os_path_join (separated_dir session_dir input_key) [filename])
         output_bucket (s3_key output_prefix session_dir filename) r.

(** The number of calls of one kind. *)
Definition kind_eqb (a b : kind) : bool :=
  match a, b with
  | KDownload, KDownload | KMakedirs, KMakedirs | KRun, KRun
  | KExists, KExists | KListdir, KListdir | KUpload, KUpload
  | KRemove, KRemove | KRmtree, KRmtree => true
  | _, _ => false
  end.

Definition count_kind (k : kind) (cs : list Call) : nat :=
  length (filter (fun c => kind_eqb (kind_of c) k) cs).

(** The calls of one run of [cleanup_local_files], the earliest first. *)
Inductive cleanup_history (i o : string) : list Call -> Prop :=
| cleanup_nothing :
    cleanup_history i o [Exists i false; Exists o false]
| cleanup_input :
    cleanup_history i o
      [Exists i true; Remove i (Returned tt); Exists o false]
| cleanup_output :
    cleanup_history i o
      [Exists i false; Exists o true; Rmtree o (Returned tt)]
| cleanup_both :
    cleanup_history i o
      [Exists i true; Remove i (Returned tt);
       Exists o true; Rmtree o (Returned tt)]
| cleanup_remove_raised e :
    cleanup_history i o [Exists i true; Remove i (Raised e)]
| cleanup_rmtree_raised e :
    cleanup_history i o
      [Exists i false; Exists o true; Rmtree o (Raised e)]
| cleanup_rmtree_raised_after_remove e :
    cleanup_history i o
      [Exists i true; Remove i (Returned tt);
       Exists o true; Rmtree o (Raised e)].

Section Module.

Context {World : Type} `{P : Platform World}.
Local Open Scope py_scope.

(** [ping()]. *)
Definition ping : M (World := World) Response :=
  ret (JObj [("status", JStr "healthy")], 200%Z).

(** The statements the module runs when it is loaded:
    [os.makedirs(UPLOAD_DIR, exist_ok=True)] and
    [os.makedirs(OUTPUT_DIR, exist_ok=True)]. *)
Definition module_init : M unit :=
  call (os_makedirs UPLOAD_DIR) (Makedirs UPLOAD_DIR) ;;
  call (os_makedirs OUTPUT_DIR) (Makedirs OUTPUT_DIR).

(** The calls of a request, the earliest first. *)
Definition history (loaded : outcome json) (w : World) : list Call :=
  rev (calls (final loaded w)).

(** The calls a request makes once both URIs are decomposed, the earliest
    first, with the response it ends in.  [ib], [ik] are bucket and key of
    the input, [ob], [op] bucket and prefix of the output, [sidv] the value
    of [session_id]. *)
Inductive protocol (ib ik ob op : string) (sidv : json)
  : list Call -> Response -> Prop :=
| download_raised e :
    protocol ib ik ob op sidv
      [Download ib ik (local_input_path ik) (Raised e)]
      (error_response e)
| session_rejected e :
    fspath sidv = Raised e ->
    protocol ib ik ob op sidv
      [Download ib ik (local_input_path ik) (Returned tt)]
      (error_response e)
| makedirs_raised sdir e :
    sidv = JStr sdir ->
    protocol ib ik ob op sidv
      [Download ib ik (local_input_path ik) (Returned tt);
       Makedirs (output_path sdir) (Raised e)]
      (error_response e)
| run_raised sdir e :
    sidv = JStr sdir ->
    protocol ib ik ob op sidv
      [Download ib ik (local_input_path ik) (Returned tt);
       Makedirs (output_path sdir) (Returned tt);
       Run (demucs_cmd (output_path sdir) (local_input_path ik)) (Raised e)]
      (error_response e)
| tool_failed sdir cp :
    sidv = JStr sdir ->
    returncode cp <> 0%Z ->
    protocol ib ik ob op sidv
      [Download ib ik (local_input_path ik) (Returned tt);
       Makedirs (output_path sdir) (Returned tt);
       Run (demucs_cmd (output_path sdir) (local_input_path ik))
           (Returned cp)]
      (error_response
         (RuntimeError ("Demucs failed" ++ nl ++ proc_stderr cp)))
| output_missing sdir cp :
    sidv = JStr sdir ->
    returncode cp = 0%Z ->
    protocol ib ik ob op sidv
      [Download ib ik (local_input_path ik) (Returned tt);
       Makedirs (output_path sdir) (Returned tt);
       Run (demucs_cmd (output_path sdir) (local_input_path ik))
           (Returned cp);
       Exists (separated_dir sdir ik) false]
      (error_response
         (RuntimeError "Output not found. Demucs path may be wrong."))
| listdir_raised sdir cp e :
    sidv = JStr sdir ->
    returncode cp = 0%Z ->
    protocol ib ik ob op sidv
      [Download ib ik (local_input_path ik) (Returned tt);
       Makedirs (output_path sdir) (Returned tt);
       Run (demucs_cmd (output_path sdir) (local_input_path ik))
           (Returned cp);
       Exists (separated_dir sdir ik) true;
       Listdir (separated_dir sdir ik) (Raised e)]
      (error_response e)
| upload_raised sdir cp done failed rest e :
    sidv = JStr sdir ->
    returncode cp = 0%Z ->
    protocol ib ik ob op sidv
      ([Download ib ik (local_input_path ik) (Returned tt);
        Makedirs (output_path sdir) (Returned tt);
        Run (demucs_cmd (output_path sdir) (local_input_path ik))
            (Returned cp);
        Exists (separated_dir sdir ik) true;
        Listdir (separated_dir sdir ik)
                (Returned (done ++ failed :: rest))]
         ++ map (fun n => upload_call sdir ik ob op n (Returned tt)) done
         ++ [upload_call sdir ik ob op failed (Raised e)])%list
      (error_response e)
| request_served sdir cp names cleanup :
    sidv = JStr sdir ->
    returncode cp = 0%Z ->
    cleanup_history (local_input_path ik) (output_path sdir) cleanup ->
    protocol ib ik ob op sidv
      ([Download ib ik (local_input_path ik) (Returned tt);
        Makedirs (output_path sdir) (Returned tt);
        Run (demucs_cmd (output_path sdir) (local_input_path ik))
            (Returned cp);
        Exists (separated_dir sdir ik) true;
        Listdir (separated_dir sdir ik) (Returned names)]
         ++ map (fun n => upload_call sdir ik ob op n (Returned tt)) names
         ++ cleanup)%list
      (success_response sidv (map (entry_for ob op sidv) names)).

End Module.

(** A platform on which the tool exits with code 0 and writes nothing; the
    rest is the simulated platform. *)
Definition silent_run (cmd : list string) (w : Sim.World)
  : Sim.World * outcome CompletedProcess :=
  (w, Returned (mkCompleted 0 EmptyString EmptyString)).

Definition silent_platform : Platform Sim.World := {|
  s3_download_file := Sim.download;
  s3_upload_file := Sim.upload;
  subprocess_run := silent_run;
  os_makedirs := Sim.makedirs;
  os_path_exists := Sim.exists_;
  os_listdir := Sim.listdir;
  os_remove := Sim.remove;
  shutil_rmtree := Sim.rmtree;
  sys_executable := "/usr/bin/python3";
  traceback_format_exc := Sim.format_exc
|}.

(** A request body whose [session_id] is any JSON value. *)
Definition body_with_session (input output : string) (session : json)
  : outcome json :=
  Returned (JObj [("input_s3_uri", JStr input);
                  ("output_s3_prefix", JStr output);
                  ("session_id", session)]).

(** The JSON object of [body]. *)
Definition body_object (input output session : string) : json :=
  JObj [("input_s3_uri", JStr input);
        ("output_s3_prefix", JStr output);
        ("session_id", JStr session)].

(** A body without [session_id]. *)
Definition body_without_session : list (string * json) :=
  [("input_s3_uri", JStr "s3://in/songs/song.wav");
   ("output_s3_prefix", JStr "s3://out/stems")].

(** A disk that holds the scratch of session [abc]; [locked] are the paths
    that may not be deleted. *)
Definition used_disk (locked : list string) : Sim.World :=
  Sim.mkWorld ["/tmp/uploads/song.wav";
               "/tmp/output/abc/htdemucs/song/vocals.wav"]
              ["/tmp/uploads"; "/tmp/output"; "/tmp/output/abc";
               "/tmp/output/abc/htdemucs"; "/tmp/output/abc/htdemucs/song"]
              [("in", "songs/song.wav")] ["out"]
              0 EmptyString ["vocals.wav"; "no_vocals.wav"] locked.

(** Splits a membership in a history into its cases. *)
Ltac history_cases :=
  repeat match goal with
         | H : In _ (_ ++ _)%list |- _ =>
             apply in_app_or in H; destruct H as [H | H]
         | H : In _ (map _ _) |- _ =>
             apply in_map_iff in H; destruct H as (? & H & ?)
         | H : In _ (_ :: _) |- _ => destruct H as [H | H]
         | H : In _ [] |- _ => destruct H
         end.

(** Finds a call in the calls of a concrete run. *)
Ltac compute_in := vm_compute; repeat first [left; reflexivity | right].

(** ** Tactics *)

(** Unfolds the monad, leaving the calls to the loop, to the cleanup and to
    the platform in place. *)
Ltac run_monad_in E :=
  cbv beta iota zeta delta
    [bind ret raise lift call observe print try_except world stdout calls] in E.

Ltac run_monad :=
  cbv beta iota zeta delta
    [bind ret raise lift call observe print try_except world stdout calls].

(** Splits on the innermost scrutinee of [E]. *)
Ltac case_step E :=
  match type of E with
  | context [match ?x with _ => _ end] =>
      lazymatch x with
      | context [match _ with _ => _ end] => fail
      | _ => destruct x eqn:?
      end
  end; cbv beta iota zeta in E.

Ltac leaf E := apply pair_equal_spec in E; destruct E as [<- <-].

(** Splits a membership in a list of calls into its cases. *)
Ltac in_cases :=
  repeat match goal with
         | H : In _ (_ ++ _)%list |- _ =>
             apply in_app_or in H; destruct H as [H | H]
         | H : In _ (_ :: _) |- _ => destruct H as [H | H]
         | H : In _ [] |- _ => destruct H
         end.

(** Uses what is known of the kinds of the calls of a phase. *)
Ltac by_kind :=
  try match goal with
      | HF : Forall _ ?evs, Hin : In ?ev ?evs |- _ =>
          let K := fresh "K" in
          pose proof (proj1 (Forall_forall _ evs) HF ev Hin) as K;
          cbn in K; discriminate K
      end.

(** * Properties *)

(** ** Strings *)

Lemma append_assoc (a b c : string) : (a ++ b) ++ c = a ++ (b ++ c).
Proof. induction a as [|x a IH]; simpl; [reflexivity | now rewrite IH]. Qed.

Lemma append_nil_r (a : string) : a ++ EmptyString = a.
Proof. induction a as [|x a IH]; simpl; [reflexivity | now rewrite IH]. Qed.

Lemma append_length (a b : string) :
  String.length (a ++ b) = String.length a + String.length b.
Proof. induction a as [|x a IH]; simpl; [reflexivity | now rewrite IH]. Qed.

Lemma strip_prefix_app (p r : string) : Py.strip_prefix p (p ++ r) = Some r.
Proof.
  induction p as [|x p IH]; simpl; [reflexivity|].
  now rewrite Ascii.eqb_refl.
Qed.

Lemma strip_prefix_inv (p s r : string) :
  Py.strip_prefix p s = Some r -> s = p ++ r.
Proof.
  revert s; induction p as [|x p IH]; intros s H; simpl in *.
  - now inversion H.
  - destruct s as [|y s]; [discriminate|].
    destruct (Ascii.eqb_spec x y) as [->|]; [|discriminate].
    now rewrite (IH s H).
Qed.

Lemma strip_prefix_length (p s r : string) :
  Py.strip_prefix p s = Some r ->
  String.length s = String.length p + String.length r.
Proof. intros H. rewrite (strip_prefix_inv _ _ _ H). apply append_length. Qed.

(** Enough fuel: the scan does not depend on how much more there is. *)
Lemma replace_from_fuel (old new : string) :
  old <> EmptyString ->
  forall n m s, String.length s <= n -> String.length s <= m ->
    Py.replace_from n old new s = Py.replace_from m old new s.
Proof.
  intros Hold. induction n as [|n IH]; intros m s Hn Hm.
  - destruct s; [|simpl in Hn; lia].
    destruct m; simpl; [reflexivity|].
    destruct old; [congruence | reflexivity].
  - destruct m as [|m].
    + destruct s; [|simpl in Hm; lia].
      simpl. destruct old; [congruence | reflexivity].
    + simpl. destruct (Py.strip_prefix old s) as [rest|] eqn:E.
      * apply strip_prefix_length in E.
        assert (0 < String.length old)
          by (destruct old; [congruence | simpl; lia]).
        f_equal. apply IH; lia.
      * destruct s as [|c s]; [reflexivity|].
        simpl in Hn, Hm. f_equal. apply IH; lia.
Qed.

(** The two equations of [str.replace] for a non-empty pattern. *)
Lemma str_replace_match (old new s rest : string) :
  old <> EmptyString ->
  Py.strip_prefix old s = Some rest ->
  Py.str_replace old new s = new ++ Py.str_replace old new rest.
Proof.
  intros Hold E. unfold Py.str_replace.
  pose proof (strip_prefix_length _ _ _ E) as L.
  assert (0 < String.length old) by (destruct old; [congruence | simpl; lia]).
  destruct (String.length s) as [|n] eqn:Ls; [lia|].
  simpl. rewrite E. f_equal. apply replace_from_fuel; [assumption | lia | lia].
Qed.

Lemma str_replace_skip (old new : string) (c : ascii) (s : string) :
  old <> EmptyString ->
  Py.strip_prefix old (String c s) = None ->
  Py.str_replace old new (String c s) = String c (Py.str_replace old new s).
Proof.
  intros Hold E. unfold Py.str_replace.
  change (String.length (String c s)) with (S (String.length s)).
  cbn [Py.replace_from]. rewrite E. reflexivity.
Qed.

Lemma str_replace_nil (old new : string) :
  old <> EmptyString -> Py.str_replace old new EmptyString = EmptyString.
Proof. reflexivity. Qed.

Lemma scheme_nonempty : scheme <> EmptyString.
Proof. discriminate. Qed.

(** No occurrence of the scheme starts inside [a] and ends inside a scheme
    that follows [a]: the scheme has no proper border. *)
Lemma scheme_no_straddle (a b : string) :
  a <> EmptyString ->
  Py.strip_prefix scheme a = None ->
  Py.strip_prefix scheme (a ++ scheme ++ b) = None.
Proof.
  intros Ha H. unfold scheme in *. revert H.
  destruct a as [|c1 [|c2 [|c3 [|c4 [|c5 a]]]]]; [congruence|..];
    cbn [Py.strip_prefix append];
    repeat match goal with
           | |- context [Ascii.eqb ?x ?y] =>
               destruct (Ascii.eqb_spec x y); subst;
               try discriminate; try reflexivity
           end.
Qed.

Lemma strong_string_ind (Q : string -> Prop) :
  (forall s, (forall t, String.length t < String.length s -> Q t) -> Q s) ->
  forall s, Q s.
Proof.
  intros H s. remember (String.length s) as n eqn:E.
  revert s E. induction n as [n IH] using lt_wf_ind.
  intros s ->. apply H. intros t Ht. now apply (IH _ Ht).
Qed.

(** [str.replace] removes an occurrence of the scheme wherever it stands. *)
Lemma remove_scheme_app (a b : string) :
  Py.str_replace scheme EmptyString (a ++ scheme ++ b)
  = Py.str_replace scheme EmptyString a ++ Py.str_replace scheme EmptyString b.
Proof.
  induction a as [a IH] using strong_string_ind.
  destruct a as [|c a'].
  - cbn [append].
    rewrite (str_replace_match scheme EmptyString _ b scheme_nonempty
               (strip_prefix_app scheme b)).
    reflexivity.
  - destruct (Py.strip_prefix scheme (String c a')) as [rest|] eqn:E.
    + pose proof (strip_prefix_inv _ _ _ E) as Ea.
      pose proof (strip_prefix_length _ _ _ E) as La.
      rewrite (str_replace_match scheme EmptyString _ rest scheme_nonempty E).
      rewrite Ea at 1. rewrite append_assoc.
      rewrite (str_replace_match scheme EmptyString _ _ scheme_nonempty
                 (strip_prefix_app scheme (rest ++ scheme ++ b))).
      cbn [append]. apply IH. rewrite La. simpl. lia.
    + rewrite (str_replace_skip scheme EmptyString c a' scheme_nonempty E).
      assert (N : Py.strip_prefix scheme (String c a' ++ scheme ++ b) = None)
        by (apply scheme_no_straddle; [discriminate | exact E]).
      cbn [append] in N |- *.
      rewrite (str_replace_skip scheme EmptyString c _ scheme_nonempty N).
      f_equal. apply IH. simpl. lia.
Qed.

Lemma str_replace_length (s : string) :
  String.length (Py.str_replace scheme EmptyString s) <= String.length s.
Proof.
  induction s as [s IH] using strong_string_ind.
  destruct (Py.strip_prefix scheme s) as [rest|] eqn:E.
  - rewrite (str_replace_match scheme EmptyString _ rest scheme_nonempty E).
    pose proof (strip_prefix_length _ _ _ E) as L. cbn [append].
    assert (String.length rest < String.length s) by (rewrite L; simpl; lia).
    specialize (IH rest H). lia.
  - destruct s as [|c s]; [simpl; lia|].
    rewrite (str_replace_skip scheme EmptyString c s scheme_nonempty E).
    simpl. specialize (IH s). simpl in IH. lia.
Qed.

(** A text the scheme does not occur in is left as it is. *)
Lemma str_replace_clean (s : string) :
  ~ occurs scheme s -> Py.str_replace scheme EmptyString s = s.
Proof.
  induction s as [|c s IH]; intros H; [reflexivity|].
  destruct (Py.strip_prefix scheme (String c s)) as [rest|] eqn:E.
  - exfalso. apply H. exists EmptyString, rest.
    apply (strip_prefix_inv _ _ _ E).
  - rewrite (str_replace_skip scheme EmptyString c s scheme_nonempty E).
    f_equal.
    apply IH. intros (a & b & ->). apply H. now exists (String c a), b.
Qed.

(** Each occurrence of the scheme costs the text its five characters. *)
Lemma occurs_scheme_shortens (s : string) :
  occurs scheme s ->
  String.length (Py.str_replace scheme EmptyString s) + 5
  <= String.length s.
Proof.
  intros (a & b & ->). rewrite remove_scheme_app, !append_length.
  pose proof (str_replace_length a). pose proof (str_replace_length b).
  change (String.length scheme) with 5. lia.
Qed.

Lemma not_occurs_scheme (s : string) :
  String.length s < String.length (Py.str_replace scheme EmptyString s) + 5 ->
  scheme_free s.
Proof. intros H O. apply occurs_scheme_shortens in O. lia. Qed.

Lemma empty_scheme_free : scheme_free EmptyString.
Proof. apply not_occurs_scheme. cbn. lia. Qed.

(** ** Joining *)

Lemma str_join_cons (sep p q : string) (l : list string) :
  Py.str_join sep (p :: q :: l) = p ++ sep ++ Py.str_join sep (q :: l).
Proof. reflexivity. Qed.

Lemma str_join_head (sep : string) (c : ascii) (p : string)
    (l : list string) :
  Py.str_join sep (String c p :: l) = String c (Py.str_join sep (p :: l)).
Proof. destruct l; reflexivity. Qed.

Lemma str_join_prefix (sep p : string) (l : list string) :
  exists t, Py.str_join sep (p :: l) = p ++ t.
Proof.
  destruct l as [|q l].
  - exists EmptyString. cbn. now rewrite append_nil_r.
  - eexists. apply str_join_cons.
Qed.

(** Every text is made of pieces without the scheme, put together with the
    scheme between them; the scan goes from left to right, as that of
    [str.replace]. *)
Lemma scheme_pieces (uri : string) :
  exists p ps,
    uri = Py.str_join scheme (p :: ps) /\ Forall scheme_free (p :: ps).
Proof.
  induction uri as [uri IH] using strong_string_ind.
  destruct (Py.strip_prefix scheme uri) as [rest|] eqn:E.
  - pose proof (strip_prefix_inv _ _ _ E) as ->.
    destruct (IH rest) as (p & ps & -> & F).
    { rewrite append_length. cbn. lia. }
    exists EmptyString, (p :: ps). split; [reflexivity|].
    constructor; [exact empty_scheme_free | exact F].
  - destruct uri as [|c s].
    + exists EmptyString, []. split; [reflexivity|].
      constructor; [exact empty_scheme_free | constructor].
    + destruct (IH s) as (p & ps & Es & F).
      { cbn. lia. }
      exists (String c p), ps. split.
      * rewrite str_join_head. now rewrite <- Es.
      * apply Forall_cons_iff in F as [Fp Fps]. constructor; [|exact Fps].
        intros (a & b & H). destruct a as [|c' a].
        -- destruct (str_join_prefix scheme p ps) as (t & Et).
           rewrite Es, Et in E.
           change (String c (p ++ t)) with (String c p ++ t) in E.
           rewrite H in E. cbn [append] in E.
           rewrite append_assoc, strip_prefix_app in E. discriminate.
        -- cbn [append] in H. injection H as _ H. apply Fp. now exists a, b.
Qed.

(** Of such a text [str.replace] leaves the pieces, one after the other. *)
Lemma str_replace_pieces (pieces : list string) :
  Forall scheme_free pieces ->
  Py.str_replace scheme EmptyString (Py.str_join scheme pieces)
  = Py.str_join EmptyString pieces.
Proof.
  induction pieces as [|p [|q l] IH]; intros F.
  - reflexivity.
  - apply Forall_cons_iff in F as [Fp _]. cbn. now apply str_replace_clean.
  - apply Forall_cons_iff in F as [Fp Fl].
    rewrite !str_join_cons, remove_scheme_app, (IH Fl).
    now rewrite (str_replace_clean p Fp).
Qed.

(** ** Splitting *)

Lemma str_split1_shape (sep s : string) :
  (Py.str_split1 sep s = [s] /\ ~ occurs sep s)
  \/ (exists x y, Py.str_split1 sep s = [x; y] /\ s = x ++ sep ++ y).
Proof.
  induction s as [|c s IH].
  - destruct sep as [|x sep].
    + right. exists EmptyString, EmptyString. split; reflexivity.
    + left. split; [reflexivity|]. intros (a & b & H).
      apply (f_equal String.length) in H. rewrite !append_length in H.
      simpl in H. lia.
  - cbn [Py.str_split1].
    destruct (Py.strip_prefix sep (String c s)) as [rest|] eqn:E.
    + right. exists EmptyString, rest. split; [reflexivity|].
      apply (strip_prefix_inv _ _ _ E).
    + destruct IH as [[-> N] | (x & y & -> & Es)].
      * left. split; [reflexivity|]. intros (a & b & H).
        destruct a as [|c' a].
        -- simpl in H. rewrite H, strip_prefix_app in E. discriminate.
        -- simpl in H. injection H as _ H. apply N. now exists a, b.
      * right. exists (String c x), y. split; [reflexivity|].
        simpl. now rewrite Es.
Qed.

Lemma str_mem_app (c : ascii) (a b : string) :
  Py.str_mem c (a ++ b) = Py.str_mem c a || Py.str_mem c b.
Proof.
  induction a as [|x a IH]; simpl; [reflexivity|].
  rewrite IH. now rewrite orb_assoc.
Qed.

(** A text without the separator character is not split; a text is split at
    the first separator. *)
Lemma str_split1_none (s : string) :
  Py.str_mem "/" s = false -> Py.str_split1 "/" s = [s].
Proof.
  induction s as [|c s IH]; intros H; [reflexivity|].
  simpl in H. apply orb_false_iff in H as [Hc Hs].
  rewrite Ascii.eqb_sym in Hc.
  cbn [Py.str_split1 Py.strip_prefix]. rewrite Hc, (IH Hs). reflexivity.
Qed.

Lemma str_split1_first (b k : string) :
  Py.str_mem "/" b = false -> Py.str_split1 "/" (b ++ "/" ++ k) = [b; k].
Proof.
  induction b as [|c b IH]; intros H; [reflexivity|].
  simpl in H. apply orb_false_iff in H as [Hc Hs].
  rewrite Ascii.eqb_sym in Hc.
  specialize (IH Hs).
  cbn [Py.str_split1 Py.strip_prefix append] in IH |- *.
  rewrite Hc, IH. reflexivity.
Qed.

Lemma str_split1_head_no_separator (s x y : string) :
  Py.str_split1 "/" s = [x; y] -> Py.str_mem "/" x = false.
Proof.
  revert x. induction s as [|c s IH]; intros x; [discriminate|].
  cbn [Py.str_split1 Py.strip_prefix].
  destruct (Ascii.eqb "/" c) eqn:C.
  - intros [= <- _]. reflexivity.
  - destruct (Py.str_split1 "/" s) as [|h [|h' [|? ?]]] eqn:E;
      try discriminate.
    intros [= <- <-]. cbn [Py.str_mem].
    rewrite Ascii.eqb_sym, C. cbn. now apply IH.
Qed.

Lemma str_mem_occurs (s : string) :
  Py.str_mem "/" s = true -> occurs "/" s.
Proof.
  induction s as [|c s IH]; [discriminate|].
  cbn [Py.str_mem]. destruct (Ascii.eqb_spec c "/") as [-> | _].
  - intros _. now exists EmptyString, s.
  - intros M. destruct (IH M) as (a & b & ->). now exists (String c a), b.
Qed.

(** ** Decomposition of URIs *)

Lemma occurs_scheme_has_slash (s : string) :
  occurs scheme s -> Py.str_mem "/" s = true.
Proof.
  intros (a & b & ->). rewrite !str_mem_app. unfold scheme.
  cbn. now rewrite orb_true_r.
Qed.

Lemma str_replace_leading (rest : string) :
  Py.str_replace "s3://" EmptyString ("s3://" ++ rest)
  = Py.str_replace "s3://" EmptyString rest.
Proof.
  exact (str_replace_match scheme EmptyString _ rest scheme_nonempty
           (strip_prefix_app scheme rest)).
Qed.

(** X26: a round trip: for a bucket without separator and a key, when the
    scheme does not occur in [bucket/key], the function returns exactly
    bucket and key for the URI [s3://bucket/key]. *)
Lemma parse_s3_uri_clean (bucket key : string) :
  Py.str_mem "/" bucket = false ->
  ~ occurs scheme (bucket ++ "/" ++ key) ->
  parse_s3_uri (JStr ("s3://" ++ bucket ++ "/" ++ key))
  = Returned (bucket, key).
Proof.
  intros Hb Hc. unfold parse_s3_uri.
  rewrite str_replace_leading.
  change "s3://" with scheme. rewrite (str_replace_clean _ Hc).
  rewrite (str_split1_first bucket key Hb). reflexivity.
Qed.

Lemma parse_s3_uri_no_separator (uri : string) :
  no_separator uri -> parse_s3_uri (JStr uri) = Raised IndexError.
Proof.
  unfold no_separator, parse_s3_uri. intros H.
  rewrite (str_split1_none _ H). reflexivity.
Qed.

(** A scheme followed by a bucket name alone has no separator. *)
Lemma bucket_only_no_separator (bucket : string) :
  Py.str_mem "/" bucket = false -> no_separator ("s3://" ++ bucket).
Proof.
  intros H. unfold no_separator. rewrite str_replace_leading.
  change "s3://" with scheme. rewrite str_replace_clean; [exact H|].
  intros O. apply occurs_scheme_has_slash in O. congruence.
Qed.

Lemma parse_s3_uri_returned (uri : json) (bucket key : string) :
  parse_s3_uri uri = Returned (bucket, key) ->
  exists s, uri = JStr s
    /\ Py.str_replace "s3://" EmptyString s = bucket ++ "/" ++ key.
Proof.
  destruct uri; try discriminate. unfold parse_s3_uri.
  destruct (str_split1_shape "/" (Py.str_replace "s3://" EmptyString s))
    as [[-> _] | (x & y & -> & E)]; cbn; [discriminate|].
  intros [= <- <-]. now exists s.
Qed.

(** What [parse_s3_uri] does with a string, read off the text that
    [str.replace] leaves: no separator and an [IndexError], or bucket and
    key on either side of the first separator. *)
Lemma parse_s3_uri_cases (uri : string) :
  (no_separator uri /\ parse_s3_uri (JStr uri) = Raised IndexError)
  \/ (exists b k,
         parse_s3_uri (JStr uri) = Returned (b, k)
         /\ Py.str_mem "/" b = false
         /\ Py.str_replace "s3://" EmptyString uri = b ++ "/" ++ k).
Proof.
  unfold no_separator.
  destruct (Py.str_mem "/" (Py.str_replace "s3://" EmptyString uri)) eqn:M.
  - right. apply str_mem_occurs in M.
    destruct (str_split1_shape "/" (Py.str_replace "s3://" EmptyString uri))
      as [[_ N] | (x & y & E & Es)]; [contradiction|].
    exists x, y. split; [|split].
    + unfold parse_s3_uri. now rewrite E.
    + exact (str_split1_head_no_separator _ _ _ E).
    + exact Es.
  - left. split; [reflexivity|]. now apply parse_s3_uri_no_separator.
Qed.

(** The text that [parse_s3_uri] works on, for a URI that splits into
    bucket and key once its leading scheme is stripped. *)
Lemma str_replace_leading_split (uri bucket key : string) :
  parse_leading_scheme uri = Some (bucket, key) ->
  Py.str_replace "s3://" EmptyString uri
  = Py.str_replace "s3://" EmptyString (bucket ++ "/" ++ key).
Proof.
  unfold parse_leading_scheme. intros Hl.
  set (rest := match Py.strip_prefix scheme uri with
               | Some r => r
               | None => uri
               end) in Hl.
  assert (Hrest : Py.str_replace "s3://" EmptyString uri
                  = Py.str_replace "s3://" EmptyString rest).
  { subst rest. destruct (Py.strip_prefix scheme uri) as [r|] eqn:E;
      [|reflexivity].
    exact (str_replace_match scheme EmptyString uri r scheme_nonempty E). }
  destruct (str_split1_shape "/" rest) as [[E _] | (x & y & E & Er)];
    rewrite E in Hl; [discriminate|].
  injection Hl as -> ->. now rewrite Hrest, Er.
Qed.

(** ** The upload loop and the cleanup *)

Section Phases.

Context {World : Type} `{P : Platform World}.

(** The loop makes upload calls only; it returns one entry per name, in
    order, and it raises what a failed upload raised. *)
Lemma upload_loop_spec (dir bucket pre : string) (sid : json) :
  forall (names : list string) (acc : list json) (st st' : State)
         (r : outcome (list json)),
    upload_loop dir bucket pre sid names acc st = (st', r) ->
    exists evs,
      calls st' = (evs ++ calls st)%list
      /\ Forall (fun ev => kind_of ev = KUpload) evs
      /\ match r with
         | Returned l =>
             l = (acc ++ map (entry_for bucket pre sid) names)%list
             /\ forall p b k o, In (Upload p b k o) evs -> o = Returned tt
         | Raised e => exists p b k, In (Upload p b k (Raised e)) evs
         end.
Proof.
  induction names as [|name names IH]; intros acc st st' r E.
  - cbn [upload_loop] in E. run_monad_in E. leaf E. exists []. cbn.
    rewrite app_nil_r.
    repeat split; [constructor | contradiction].
  - cbn [upload_loop] in E. destruct st as [w out cs]. run_monad_in E.
    case_step E. case_step E.
    + leaf E. eexists [_]. cbn. repeat split.
      * constructor; [reflexivity | constructor].
      * do 3 eexists. left. reflexivity.
    + apply IH in E as (evs & Hc & Hk & Hr). cbn in Hc.
      eexists (evs ++ [_])%list. rewrite <- app_assoc. cbn. split; [exact Hc|].
      split.
      * apply Forall_app. split; [exact Hk|].
        constructor; [reflexivity | constructor].
      * destruct r as [e | l].
        -- destruct Hr as (p & b & k & Hin). exists p, b, k.
           apply in_or_app. now left.
        -- destruct Hr as [-> Hok]. split.
           ++ rewrite <- app_assoc. reflexivity.
           ++ intros p' b' k' o' Hin.
              apply in_app_or in Hin as [Hin | [Hin | []]].
              ** now apply (Hok p' b' k').
              ** injection Hin as _ _ _ <-.
                 match goal with u : unit |- _ => now destruct u end.
Qed.

(** The cleanup returns normally whatever the deletions do; it makes
    existence tests and deletions only, and a deletion that raised is
    reported on standard output. *)
Lemma cleanup_spec (input_path output_path : string) (st : State) :
  exists st' evs,
    cleanup_local_files input_path output_path st = (st', Returned tt)
    /\ calls st' = (evs ++ calls st)%list
    /\ Forall (fun ev => cleanup_kind (kind_of ev) = true) evs
    /\ (forall p e,
          In (Remove p (Raised e)) evs \/ In (Rmtree p (Raised e)) evs ->
          In ("Cleanup failed: " ++ exn_str e) (stdout st')).
Proof.
  destruct (cleanup_local_files input_path output_path st) as [st' r] eqn:E.
  unfold cleanup_local_files in E. destruct st as [w out cs]. run_monad_in E.
  repeat case_step E; leaf E;
    eexists; eexists;
    (split; [reflexivity|]);
    (split; [cbn [calls];
             match goal with
             | |- ?l = (_ ++ ?t)%list =>
                 let rec go l :=
                   lazymatch l with
                   | t => constr:(@nil Call)
                   | ?x :: ?l' => let r := go l' in constr:(x :: r)
                   end in
                 let evs := go l in
                 instantiate (1 := evs); reflexivity
             end|]);
    (split; [repeat constructor|]);
    cbn; intros p e' [H|H];
    repeat match goal with
           | H : _ \/ _ |- _ => destruct H
           | H : False |- _ => destruct H
           | H : Remove _ _ = Remove _ _ |- _ => injection H as <- <-
           | H : Rmtree _ _ = Rmtree _ _ |- _ => injection H as <- <-
           | H : _ = _ |- _ => discriminate H
           end; auto.
Qed.

End Phases.

(** ** Every way a request can go *)

Section Requests.

Context {World : Type} `{P : Platform World}.

Lemma serve_outcomes (loaded : outcome json) (w : World) :
  (exists data i o,
      loaded = Returned data
      /\ py_get data "input_s3_uri" JNull = Returned i
      /\ py_get data "output_s3_prefix" JNull = Returned o
      /\ (truthy i = false \/ truthy o = false)
      /\ serve loaded w = (start w, Returned missing_fields_response))
  \/
  (exists e,
      response loaded w = Returned (error_response e)
      /\ In (error_message e) (stdout (final loaded w))
      /\ (forall ev, In ev (calls (final loaded w)) ->
            cleanup_kind (kind_of ev) = true -> exists p b, ev = Exists p b)
      /\ (forall cmd cp,
            In (Run cmd (Returned cp)) (calls (final loaded w)) ->
            returncode cp <> 0%Z ->
            e = RuntimeError ("Demucs failed" ++ nl ++ proc_stderr cp))
      /\ (forall d l,
            In (Listdir d (Returned l)) (calls (final loaded w)) ->
            exists p b k,
              In (Upload p b k (Raised e)) (calls (final loaded w))))
  \/
  (exists data i o sid ib ik bucket pre sdir names,
      loaded = Returned data
      /\ py_get data "input_s3_uri" JNull = Returned i
      /\ py_get data "output_s3_prefix" JNull = Returned o
      /\ py_get data "session_id" (JStr "default") = Returned sid
      /\ parse_s3_uri i = Returned (ib, ik)
      /\ parse_s3_uri o = Returned (bucket, pre)
      /\ fspath sid = Returned sdir
      /\ response loaded w
         = Returned (success_response sid
                       (map (entry_for bucket pre sid) names))
      /\ (forall cmd cp,
            In (Run cmd (Returned cp)) (calls (final loaded w)) ->
            returncode cp = 0%Z)
      /\ (forall d l,
            In (Listdir d (Returned l)) (calls (final loaded w)) ->
            l = names
            /\ d = Py.os_path_join (Py.os_path_join OUTPUT_DIR [sdir])
                     ["htdemucs"; Py.path_stem (Py.os_path_basename ik)])
      /\ (forall p b k r,
            In (Upload p b k r) (calls (final loaded w)) -> r = Returned tt)
      /\ (forall p e,
            In (Remove p (Raised e)) (calls (final loaded w))
            \/ In (Rmtree p (Raised e)) (calls (final loaded w)) ->
            In ("Cleanup failed: " ++ exn_str e) (stdout (final loaded w)))
      /\ (exists st0,
            cleanup_local_files
              (Py.os_path_join UPLOAD_DIR [Py.os_path_basename ik])
              (Py.os_path_join OUTPUT_DIR [sdir]) st0
            = (final loaded w, Returned tt))).
Proof.
  unfold response, final.
  destruct (serve loaded w) as [st r] eqn:E. cbn [fst snd].
  unfold serve, invocations, invocations_try, start in E.
  run_monad_in E.
  repeat case_step E.
  all: try leaf E.
  all: cbn [calls stdout world].
  all: try solve
    [ (* the request is rejected *)
      left; do 3 eexists; repeat split; eauto;
      match goal with
      | Hb : _ || _ = true |- _ =>
          apply orb_true_iff in Hb as [Hb | Hb];
          apply negb_true_iff in Hb; auto
      end
    | (* the request fails outside the loop *)
      right; left; eexists; split; [reflexivity|];
      split; [left; reflexivity|];
      split; [intros ev Hin Hk; in_cases; subst; cbn in Hk;
              try discriminate; eauto|];
      split; [intros cmd cp Hin Hnz; in_cases; try discriminate;
              injection Hin as ? ?; subst;
              first [ reflexivity
                    | match goal with
                      | Hb : negb (returncode _ =? 0)%Z = false |- _ =>
                          apply negb_false_iff, Z.eqb_eq in Hb; congruence
                      end ]|];
      intros d l Hin; in_cases; discriminate ].
  - (* an upload raised *)
    match goal with
    | H : upload_loop _ _ _ _ _ _ _ = _ |- _ =>
        apply upload_loop_spec in H as (evs & Hc & HF & (p & b & k & Hup))
    end.
    cbn [calls] in Hc. subst.
    right; left. eexists. split; [reflexivity|].
    split; [left; reflexivity|].
    split; [|split].
    + intros ev Hin Hk. in_cases; subst; cbn in Hk; try discriminate; eauto.
      rewrite (proj1 (Forall_forall _ evs) HF ev Hin) in Hk. discriminate.
    + intros cmd cp Hin Hnz. in_cases; try discriminate; by_kind.
      injection Hin as ? ?; subst.
      match goal with
      | Hb : negb (returncode _ =? 0)%Z = false |- _ =>
          apply negb_false_iff, Z.eqb_eq in Hb; congruence
      end.
    + intros d l _. exists p, b, k. apply in_or_app. now left.
  - (* the cleanup does not raise *)
    match goal with
    | H : cleanup_local_files ?a ?b ?s = _ |- _ =>
        destruct (cleanup_spec a b s) as (st' & evs & Ec & _);
        rewrite Ec in H; discriminate H
    end.
  - (* the request succeeds *)
    match goal with
    | H : cleanup_local_files ?a ?b ?s = _ |- _ =>
        destruct (cleanup_spec a b s) as (st' & evs2 & Ec & Hc2 & HF2 & Hlog);
        rewrite Ec in H; apply pair_equal_spec in H; destruct H as [<- _]
    end.
    match goal with
    | H : upload_loop _ _ _ _ _ _ _ = _ |- _ =>
        apply upload_loop_spec in H as (evs1 & Hc1 & HF1 & (Hl & Hok))
    end.
    cbn [calls app] in Hc1, Hl. rewrite Hc2, Hc1. subst.
    right; right. do 10 eexists.
    repeat (split; [eassumption || reflexivity|]).
    split; [|split; [|split; [|split]]].
    5: { eexists. exact Ec. }
    + intros cmd cp Hin. in_cases; try discriminate; by_kind.
      injection Hin as ? ?; subst.
      match goal with
      | Hb : negb (returncode _ =? 0)%Z = false |- _ =>
          apply negb_false_iff, Z.eqb_eq in Hb; exact Hb
      end.
    + intros d l Hin. in_cases; try discriminate; by_kind.
      injection Hin as ? ?; subst. split; reflexivity.
    + intros p b k r Hin. in_cases; try discriminate; by_kind.
      now apply (Hok p b k).
    + intros p e Hin. apply (Hlog p e).
      destruct Hin as [Hin | Hin]; [left | right];
        in_cases; try discriminate; by_kind; assumption.
Qed.

End Requests.

(** ** The claims about the request handler *)

Section Claims.

Context {World : Type} `{P : Platform World}.

Lemma py_get_object (d : list (string * json)) (k : string) (v dflt : json) :
  dict_lookup k d = Some v -> py_get (JObj d) k dflt = Returned v.
Proof. intros H. unfold py_get. now rewrite H. Qed.

Lemma final_start (loaded : outcome json) (w : World)
    (resp : outcome Response) :
  serve loaded w = (start w, resp) -> calls (final loaded w) = [].
Proof. intros E. unfold final. now rewrite E. Qed.

(** The handler never raises: every request gets a response. *)
Lemma serve_total (loaded : outcome json) (w : World) :
  exists resp, response loaded w = Returned resp.
Proof.
  destruct (serve_outcomes loaded w)
    as [(? & ? & ? & _ & _ & _ & _ & E) | [(e & E & _) | H]].
  - unfold response. rewrite E. cbn. eauto.
  - eauto.
  - destruct H as (? & ? & ? & ? & ? & ? & ? & ? & ? & ? & H).
    destruct H as (_ & _ & _ & _ & _ & _ & _ & E & _). eauto.
Qed.

(** Only a request that succeeded makes the deletions of the cleanup. *)
Lemma failure_skips_cleanup (loaded : outcome json) (w : World) :
  status loaded w <> 200%Z ->
  forall ev, In ev (calls (final loaded w)) ->
    kind_of ev <> KRemove /\ kind_of ev <> KRmtree.
Proof.
  intros Hs ev Hin.
  destruct (serve_outcomes loaded w)
    as [(? & ? & ? & _ & _ & _ & _ & E) | [(e & E & _ & Hk & _) | H]].
  - rewrite (final_start _ _ _ E) in Hin. destruct Hin.
  - destruct (cleanup_kind (kind_of ev)) eqn:K.
    + destruct (Hk ev Hin K) as (p & b & ->). cbn. split; discriminate.
    + destruct ev; cbn in K |- *; split; discriminate.
  - destruct H as (? & ? & ? & ? & ? & ? & ? & ? & ? & ? & H).
    destruct H as (_ & _ & _ & _ & _ & _ & _ & E & _).
    unfold status in Hs. rewrite E in Hs. now cbn in Hs.
Qed.

(** On a disk that obeys the laws of deletion, a cleanup in which no deletion
    raised leaves neither path behind. *)
Lemma cleanup_removes_scratch {L : DiskLaws P}
    (input_path output_path : string) (st st' : State) :
  cleanup_local_files input_path output_path st = (st', Returned tt) ->
  (forall p e, ~ In (Remove p (Raised e)) (calls st')) ->
  (forall p e, ~ In (Rmtree p (Raised e)) (calls st')) ->
  os_path_exists input_path (world st') = false
  /\ os_path_exists output_path (world st') = false.
Proof.
  intros E Hrm Hrt. unfold cleanup_local_files in E.
  destruct st as [w0 out cs]. run_monad_in E.
  repeat case_step E;
    apply pair_equal_spec in E; destruct E as [<- _];
    cbn [calls world] in *;
    try solve [exfalso; eapply Hrm; left; reflexivity];
    try solve [exfalso; eapply Hrt; left; reflexivity];
    repeat match goal with
           | H : os_remove _ _ = (_, Returned _) |- _ =>
               match type of H with
               | _ = (_, Returned ?u) => destruct u
               end;
               apply remove_absent in H
           | H : shutil_rmtree _ _ = (_, Returned _) |- _ =>
               match type of H with
               | _ = (_, Returned ?u) => destruct u
               end;
               pose proof (fun p => rmtree_frame p _ _ _ H);
               apply rmtree_absent in H
           end;
    split; auto.
Qed.

(** X27: on a disk that obeys the laws of deletion, after a request that
    was answered 200 and in whose cleanup no deletion raised, the local
    input file and the session directory are absent. *)
Lemma successful_request_removes_scratch {L : DiskLaws P}
    (loaded : outcome json) (w : World) :
  status loaded w = 200%Z ->
  (forall p e, ~ In (Remove p (Raised e)) (calls (final loaded w))) ->
  (forall p e, ~ In (Rmtree p (Raised e)) (calls (final loaded w))) ->
  exists data i ib ik sid,
    loaded = Returned data
    /\ py_get data "input_s3_uri" JNull = Returned i
    /\ parse_s3_uri i = Returned (ib, ik)
    /\ py_get data "session_id" (JStr "default") = Returned (JStr sid)
    /\ os_path_exists (Py.os_path_join UPLOAD_DIR [Py.os_path_basename ik])
         (world (final loaded w)) = false
    /\ os_path_exists (Py.os_path_join OUTPUT_DIR [sid])
         (world (final loaded w)) = false.
Proof.
  intros Hs Hrm Hrt.
  destruct (serve_outcomes loaded w)
    as [(? & ? & ? & _ & _ & _ & _ & E) | [(e & E & _) | H]].
  - unfold status, response in Hs. rewrite E in Hs. discriminate.
  - unfold status in Hs. rewrite E in Hs. discriminate.
  - destruct H as (data & i & o & sid & ib & ik & b & pre & sdir & names & H).
    destruct H as (Hd & Hi & _ & Hsid & Hpi & _ & Hf & _ & _ & _ & _ & _
                   & (st0 & Ec)).
    destruct sid; try discriminate. cbn in Hf. injection Hf as <-.
    exists data, i, ib, ik, s. repeat (split; [assumption|]).
    exact (cleanup_removes_scratch _ _ _ _ Ec Hrm Hrt).
Qed.

(** C5: a request whose JSON object lacks [input_s3_uri] or
    [output_s3_prefix] is answered with status 400 and a body that has the
    [error] key, and the handler has not called the outside at that point:
    the world is untouched, nothing was printed, no call was made. *)
Theorem missing_field_gives_400 (d : list (string * json)) (w : World) :
  dict_lookup "input_s3_uri" d = None
  \/ dict_lookup "output_s3_prefix" d = None ->
  serve (Returned (JObj d)) w
  = (start w,
     Returned
       (JObj [("error", JStr "Missing input_s3_uri or output_s3_prefix")],
        400%Z)).
Proof.
  intros H. unfold serve, invocations, invocations_try, py_get. run_monad.
  destruct (dict_lookup "input_s3_uri" d) as [i|],
           (dict_lookup "output_s3_prefix" d) as [o|],
           (dict_lookup "session_id" d) as [s|];
    destruct H as [H | H]; try discriminate H;
    cbn [truthy negb orb]; rewrite ?orb_true_r; reflexivity.
Qed.

(** The values Python takes for false. *)
Lemma falsy_values (v : json) :
  truthy v = false <->
  v = JNull \/ v = JBool false \/ v = JInt 0
  \/ (exists s, v = JFloat (S754_zero s))
  \/ v = JStr EmptyString \/ v = JArr [] \/ v = JObj [].
Proof.
  split.
  - destruct v as [|b|n|f|s|l|l]; cbn; intros H; auto.
    + destruct b; [discriminate | auto].
    + apply negb_false_iff, Z.eqb_eq in H. subst. auto.
    + destruct f; try discriminate. eauto 6.
    + apply negb_false_iff, String.eqb_eq in H. subst. auto 7.
    + destruct l; [auto 8 | discriminate].
    + destruct l; [auto 9 | discriminate].
  - intros [-> | [-> | [-> | [(s & ->) | [-> | [-> | ->]]]]]]; reflexivity.
Qed.

(** C9: a request in which [input_s3_uri] or [output_s3_prefix] is present
    with a value that Python takes for false (the empty string, [null],
    [false], [0], an empty list or object) gets the same 400 response as one
    in which the field is absent, before any call to the outside. *)
Theorem falsy_field_gives_400
    (d : list (string * json)) (v : json) (w : World) :
  dict_lookup "input_s3_uri" d = Some v
  \/ dict_lookup "output_s3_prefix" d = Some v ->
  truthy v = false ->
  serve (Returned (JObj d)) w = (start w, Returned missing_fields_response).
Proof.
  intros H Hv. unfold serve, invocations, invocations_try, py_get. run_monad.
  destruct (dict_lookup "input_s3_uri" d) as [i|],
           (dict_lookup "output_s3_prefix" d) as [o|],
           (dict_lookup "session_id" d) as [s|];
    destruct H as [H | H]; try discriminate H;
    try (injection H as ->; rewrite Hv);
    cbn [truthy negb orb]; rewrite ?orb_true_r; reflexivity.
Qed.

(** C7: a location URI without separator between bucket and key makes
    [parse_s3_uri] raise [IndexError], which is no validation response: a
    request that passed the check of the two fields and has such a URI is
    answered by the [except] branch with status 500, before any call to the
    outside; the exception is the [IndexError] whenever the input URI is a
    string. *)
Theorem uri_without_separator_gives_500
    (d : list (string * json)) (i o : json) (u : string) (w : World) :
  dict_lookup "input_s3_uri" d = Some i ->
  dict_lookup "output_s3_prefix" d = Some o ->
  truthy i = true -> truthy o = true ->
  no_separator u ->
  i = JStr u \/ o = JStr u ->
  parse_s3_uri (JStr u) = Raised IndexError
  /\ exn_class IndexError = "IndexError"
  /\ exists e,
       serve (Returned (JObj d)) w
       = (mkState w [error_message e] [],
          Returned (JObj [("error", JStr (error_message e))], 500%Z))
       /\ ((exists s, i = JStr s) -> e = IndexError).
Proof.
  intros Hi Ho Ti To Hu Hor.
  pose proof (parse_s3_uri_no_separator u Hu) as Hp.
  split; [exact Hp|]. split; [reflexivity|].
  unfold serve, invocations, invocations_try, py_get, start. run_monad.
  rewrite Hi, Ho. destruct (dict_lookup "session_id" d) as [s|];
    rewrite Ti, To; cbn [negb orb];
    destruct (parse_s3_uri i) as [e | [ib ik]] eqn:Ei.
  1, 3: exists e; split; [reflexivity|];
        intros (s' & ->); unfold parse_s3_uri in Ei;
        repeat match type of Ei with
               | context [match ?x with _ => _ end] => destruct x
               end; congruence.
  all: destruct Hor as [-> | ->]; [congruence|];
       rewrite Hp; exists IndexError; split; reflexivity.
Qed.

(** C4: when the separation tool exits with a non-zero code, the response
    has status 500 and its [error] text contains the captured stderr of the
    subprocess. *)
Theorem tool_failure_gives_500
    (loaded : outcome json) (w : World) (cmd : list string)
    (cp : CompletedProcess) :
  In (Run cmd (Returned cp)) (calls (final loaded w)) ->
  returncode cp <> 0%Z ->
  exists msg,
    response loaded w = Returned (JObj [("error", JStr msg)], 500%Z)
    /\ occurs (proc_stderr cp) msg.
Proof.
  intros Hin Hnz.
  destruct (serve_outcomes loaded w)
    as [(? & ? & ? & _ & _ & _ & _ & E) | [(e & E & _ & _ & Hrun & _) | H]].
  - rewrite (final_start _ _ _ E) in Hin. destruct Hin.
  - rewrite (Hrun cmd cp Hin Hnz) in E.
    eexists. split; [exact E|].
    exists ("Error: Demucs failed" ++ nl),
           (nl ++ traceback_format_exc
                    (RuntimeError ("Demucs failed" ++ nl ++ proc_stderr cp))).
    reflexivity.
  - destruct H as (? & ? & ? & ? & ? & ? & ? & ? & ? & ? & H).
    destruct H as (_ & _ & _ & _ & _ & _ & _ & _ & Hrun & _).
    elim Hnz. exact (Hrun cmd cp Hin).
Qed.


(** C3, amended: when the tool succeeded, the listing of
    [<output_dir>/htdemucs/<input name without extension>] returned exactly
    [vocals.wav] and [no_vocals.wav], and every upload returned, the response
    has status 200 and status text [success], and [output_files] holds
    exactly the two entries, each with the URI
    [s3://<bucket>/<prefix>/<session_id>/<filename>], the prefix taken
    without its trailing separators. *)
Theorem two_stems_are_reported
    (loaded : outcome json) (w : World) (data i o : json)
    (ib ik bucket pre sid : string) (cmd : list string)
    (cp : CompletedProcess) (dir : string) (names : list string) :
  loaded = Returned data ->
  py_get data "input_s3_uri" JNull = Returned i ->
  parse_s3_uri i = Returned (ib, ik) ->
  py_get data "output_s3_prefix" JNull = Returned o ->
  parse_s3_uri o = Returned (bucket, pre) ->
  py_get data "session_id" (JStr "default") = Returned (JStr sid) ->
  In (Run cmd (Returned cp)) (calls (final loaded w)) ->
  returncode cp = 0%Z ->
  In (Listdir dir (Returned names)) (calls (final loaded w)) ->
  Permutation names ["vocals.wav"; "no_vocals.wav"] ->
  (forall p b k r, In (Upload p b k r) (calls (final loaded w)) ->
                   r = Returned tt) ->
  dir = Py.os_path_join (Py.os_path_join OUTPUT_DIR [sid])
          ["htdemucs"; Py.path_stem (Py.os_path_basename ik)]
  /\ exists files,
       response loaded w
       = Returned (JObj [("status", JStr "success");
                         ("session_id", JStr sid);
                         ("output_files", JArr files)], 200%Z)
       /\ Permutation files
            [stem_entry bucket pre sid "vocals.wav";
             stem_entry bucket pre sid "no_vocals.wav"].
Proof.
  intros -> Hi Hpi Ho Hpo Hs Hrun Hcode Hls Hperm Hup.
  destruct (serve_outcomes (Returned data) w)
    as [(? & ? & ? & _ & _ & _ & _ & E) | [(e & _ & _ & _ & _ & Hl) | H]].
  - rewrite (final_start _ _ _ E) in Hls. destruct Hls.
  - destruct (Hl _ _ Hls) as (p & b & k & Hin).
    specialize (Hup _ _ _ _ Hin). discriminate.
  - destruct H as (data' & i' & o' & sid' & ib' & ik' & b' & pre' & sdir
                   & names' & H).
    destruct H as (Hd & Hi' & Ho' & Hs' & Hpi' & Hpo' & Hf & E & _ & Hl & _).
    injection Hd as <-.
    rewrite Hi in Hi'. injection Hi' as <-.
    rewrite Ho in Ho'. injection Ho' as <-.
    rewrite Hs in Hs'. injection Hs' as <-.
    rewrite Hpi in Hpi'. injection Hpi' as <- <-.
    rewrite Hpo in Hpo'. injection Hpo' as <- <-.
    cbn in Hf. injection Hf as <-.
    destruct (Hl _ _ Hls) as [<- ->].
    split; [reflexivity|].
    eexists. split; [exact E|].
    change [stem_entry bucket pre sid "vocals.wav";
            stem_entry bucket pre sid "no_vocals.wav"]
      with (map (entry_for bucket pre (JStr sid))
                ["vocals.wav"; "no_vocals.wav"]).
    now apply Permutation_map.
Qed.

(** C2, amended: a request whose two fields are present with values that
    Python takes for true is never answered with the 400 of the validation;
    it reaches the subprocess call whenever, in addition, both URIs
    decompose into bucket and key, [session_id] is a string, and the
    download and the creation of the session directory return. *)
Theorem valid_request_reaches_tool
    (d : list (string * json)) (i o : json) (w : World) :
  dict_lookup "input_s3_uri" d = Some i ->
  dict_lookup "output_s3_prefix" d = Some o ->
  truthy i = true -> truthy o = true ->
  status (Returned (JObj d)) w <> 400%Z
  /\ forall ib ik ob op sid w1 w2,
       parse_s3_uri i = Returned (ib, ik) ->
       parse_s3_uri o = Returned (ob, op) ->
       py_get (JObj d) "session_id" (JStr "default") = Returned (JStr sid) ->
       s3_download_file ib ik
         (Py.os_path_join UPLOAD_DIR [Py.os_path_basename ik]) w
       = (w1, Returned tt) ->
       os_makedirs (Py.os_path_join OUTPUT_DIR [sid]) w1 = (w2, Returned tt) ->
       exists r,
         In (Run (demucs_cmd (Py.os_path_join OUTPUT_DIR [sid])
                    (Py.os_path_join UPLOAD_DIR [Py.os_path_basename ik])) r)
            (calls (final (Returned (JObj d)) w)).
Proof.
  intros Hi Ho Ti To. split.
  - destruct (serve_outcomes (Returned (JObj d)) w)
      as [(data & i' & o' & Hd & Hi' & Ho' & Hf & _) | [(e & E & _) | H]].
    + injection Hd as <-.
      rewrite (py_get_object _ _ _ _ Hi) in Hi'. injection Hi' as <-.
      rewrite (py_get_object _ _ _ _ Ho) in Ho'. injection Ho' as <-.
      destruct Hf; congruence.
    + unfold status. rewrite E. discriminate.
    + destruct H as (? & ? & ? & ? & ? & ? & ? & ? & ? & ? & H).
      destruct H as (_ & _ & _ & _ & _ & _ & _ & E & _).
      unfold status. rewrite E. discriminate.
  - intros ib ik ob op sid w1 w2 Hpi Hpo Hs Hdl Hmk.
    unfold final. destruct (serve (Returned (JObj d)) w) as [st r] eqn:E.
    cbn [fst].
    unfold serve, invocations, invocations_try, start in E.
    run_monad_in E.
    rewrite (py_get_object _ _ _ JNull Hi), (py_get_object _ _ _ JNull Ho),
      Hs in E.
    rewrite Ti, To in E. cbn [negb orb] in E.
    rewrite Hpi, Hpo in E. cbv beta iota zeta in E.
    rewrite Hdl in E. cbn [fspath] in E. cbv beta iota zeta in E.
    rewrite Hmk in E. cbv beta iota zeta in E.
    repeat case_step E.
    all: try leaf E; cbn [calls].
    all: try solve [eexists; cbn; eauto 8].
    + match goal with
      | H : upload_loop _ _ _ _ _ _ _ = _ |- _ =>
          apply upload_loop_spec in H as (evs & Hc & _)
      end.
      cbn [calls] in Hc. subst. eexists. apply in_or_app. right.
      cbn. eauto 8.
    + match goal with
      | H : cleanup_local_files ?a ?b ?s = _ |- _ =>
          destruct (cleanup_spec a b s) as (st' & evs & Ec & _);
          rewrite Ec in H; discriminate H
      end.
    + match goal with
      | H : cleanup_local_files ?a ?b ?s = _ |- _ =>
          destruct (cleanup_spec a b s) as (st' & evs2 & Ec & Hc2 & _);
          rewrite Ec in H; apply pair_equal_spec in H; destruct H as [<- _]
      end.
      match goal with
      | H : upload_loop _ _ _ _ _ _ _ = _ |- _ =>
          apply upload_loop_spec in H as (evs1 & Hc1 & _)
      end.
      cbn [calls] in Hc1. rewrite Hc2, Hc1. eexists.
      apply in_or_app. right. apply in_or_app. right. cbn. eauto 8.
Qed.

End Claims.

(** ** The claims about the decomposition of URIs *)

(** C10: [parse_s3_uri] removes the scheme [s3://] wherever it stands in
    the string, not at the head only.  Every string is a sequence of pieces
    without the scheme, put together with the scheme between them, and the
    function answers for the pieces written one after the other: bucket and
    key on either side of their first separator, or [IndexError] when they
    hold no separator.  So for a URI whose key (what follows the first
    separator once the leading scheme is stripped) contains the scheme, the
    function never gives the pair (bucket, key) of that reading: it raises
    [IndexError], no separator being left, or it returns a pair that
    differs from it, the split of [bucket/key] with the scheme removed,
    which is shorter by five characters or more. *)
Theorem scheme_removed_everywhere :
  (forall uri, exists pieces,
      uri = Py.str_join "s3://" pieces /\ Forall scheme_free pieces)
  /\ (forall pieces, Forall scheme_free pieces ->
        (forall bucket key,
            Py.str_mem "/" bucket = false ->
            Py.str_join EmptyString pieces = bucket ++ "/" ++ key ->
            parse_s3_uri (JStr (Py.str_join "s3://" pieces))
            = Returned (bucket, key))
        /\ (Py.str_mem "/" (Py.str_join EmptyString pieces) = false ->
            parse_s3_uri (JStr (Py.str_join "s3://" pieces))
            = Raised IndexError))
  /\ (forall uri bucket key,
        parse_leading_scheme uri = Some (bucket, key) ->
        occurs "s3://" key ->
        (no_separator uri /\ parse_s3_uri (JStr uri) = Raised IndexError)
        \/ (exists b k,
               parse_s3_uri (JStr uri) = Returned (b, k)
               /\ (b, k) <> (bucket, key)
               /\ b ++ "/" ++ k
                  = Py.str_replace "s3://" EmptyString (bucket ++ "/" ++ key)
               /\ String.length (b ++ "/" ++ k) + 5
                  <= String.length (bucket ++ "/" ++ key))).
Proof.
  split; [|split].
  - intros uri. destruct (scheme_pieces uri) as (p & ps & E & F).
    now exists (p :: ps).
  - intros pieces F. pose proof (str_replace_pieces pieces F) as R.
    change scheme with "s3://" in R. split.
    + intros bucket key Hb E. unfold parse_s3_uri.
      rewrite R, E, (str_split1_first bucket key Hb). reflexivity.
    + intros Hn. apply parse_s3_uri_no_separator. unfold no_separator.
      now rewrite R.
  - intros uri bucket key Hl O.
    destruct (parse_s3_uri_cases uri) as [H | (b & k & Hp & _ & Hr)];
      [now left | right].
    rewrite (str_replace_leading_split _ _ _ Hl) in Hr.
    assert (L : String.length (b ++ "/" ++ k) + 5
                <= String.length (bucket ++ "/" ++ key)).
    { rewrite <- Hr. apply occurs_scheme_shortens.
      destruct O as (a & c & ->). exists (bucket ++ "/" ++ a), c.
      now rewrite !append_assoc. }
    exists b, k. split; [exact Hp|].
    split; [|split; [now rewrite Hr | exact L]].
    intros [= -> ->]. lia.
Qed.

(** C6: on the URI [s3://bucket/path/to/s3://object.wav] the function does
    not return the key [path/to/s3://object.wav] that follows the first
    separator: the scheme inside the key is removed with the leading one. *)
Theorem key_containing_scheme_is_altered :
  parse_s3_uri (JStr "s3://bucket/path/to/s3://object.wav")
  = Returned ("bucket", "path/to/object.wav")
  /\ parse_leading_scheme "s3://bucket/path/to/s3://object.wav"
     = Some ("bucket", "path/to/s3://object.wav").
Proof. split; reflexivity. Qed.

(** ** Requests served by the simulated platform *)

Lemma sim_mem_filter (f : string -> bool) (p : string) (l : list string) :
  f p = false -> Sim.mem p (filter f l) = false.
Proof.
  intros Hf. unfold Sim.mem. induction l as [|q l IH]; [reflexivity|].
  cbn. destruct (f q) eqn:Fq; [|exact IH].
  cbn. rewrite IH, orb_false_r. apply String.eqb_neq. congruence.
Qed.

Lemma sim_mem_filter_absent (f : string -> bool) (p : string)
    (l : list string) :
  Sim.mem p l = false -> Sim.mem p (filter f l) = false.
Proof.
  unfold Sim.mem. induction l as [|q l IH]; [reflexivity|].
  cbn. intros H. apply orb_false_iff in H as [Hq Hl].
  destruct (f q); cbn; [rewrite Hq|]; auto.
Qed.

(** The simulated disk obeys the laws of deletion. *)
Lemma sim_disk_laws : DiskLaws Sim.platform.
Proof.
  split; cbn [os_remove shutil_rmtree os_path_exists Sim.platform].
  - intros p w w'. unfold Sim.remove, Sim.exists_.
    destruct (Sim.mem p (Sim.undeletable w)); [discriminate|].
    destruct (Sim.mem p (Sim.dirs w)) eqn:D; [discriminate|].
    destruct (Sim.mem p (Sim.files w)); [|discriminate].
    intros [= <-]. cbn [Sim.files Sim.dirs Sim.with_disk].
    rewrite D, orb_false_r.
    apply sim_mem_filter. now rewrite String.eqb_refl.
  - intros p w w'. unfold Sim.rmtree, Sim.exists_.
    destruct (Sim.mem p (Sim.undeletable w)); [discriminate|].
    destruct (Sim.mem p (Sim.files w)); [discriminate|].
    destruct (Sim.mem p (Sim.dirs w)); [|discriminate].
    intros [= <-]. cbn [Sim.files Sim.dirs Sim.with_disk].
    assert (O : Sim.outside p p = false)
      by (unfold Sim.outside; now rewrite String.eqb_refl).
    now rewrite !sim_mem_filter.
  - intros p q w w'. unfold Sim.rmtree, Sim.exists_.
    destruct (Sim.mem q (Sim.undeletable w)); [discriminate|].
    destruct (Sim.mem q (Sim.files w)); [discriminate|].
    destruct (Sim.mem q (Sim.dirs w)); [|discriminate].
    intros [= <-] H. apply orb_false_iff in H as [Hf Hd].
    cbn [Sim.files Sim.dirs Sim.with_disk].
    now rewrite !sim_mem_filter_absent.
Qed.

(** C1: the tool exits with code 1 on a request whose input was downloaded.
    The handler answers 500 without a single deletion, and the input file
    and the session directory, which the request created, are still on disk
    afterwards. *)
Theorem failed_request_leaves_files :
  let w := Sim.with_tool Sim.fresh 1 "CUDA out of memory" in
  os_path_exists "/tmp/uploads/song.wav" w = false
  /\ os_path_exists "/tmp/output/abc" w = false
  /\ status good_body w = 500%Z
  /\ os_path_exists "/tmp/uploads/song.wav" (world (final good_body w)) = true
  /\ os_path_exists "/tmp/output/abc" (world (final good_body w)) = true
  /\ map kind_of (calls (final good_body w)) = [KRun; KMakedirs; KDownload].
Proof. vm_compute. repeat split. Qed.

(** The same request when the tool succeeds: both are gone afterwards. *)
Example successful_request_cleans_up :
  status good_body Sim.fresh = 200%Z
  /\ os_path_exists "/tmp/uploads/song.wav" (world (final good_body Sim.fresh))
     = false
  /\ os_path_exists "/tmp/output/abc" (world (final good_body Sim.fresh))
     = false.
Proof. vm_compute. repeat split. Qed.

Example successful_request_removes_scratch_on_sim :
  os_path_exists "/tmp/uploads/song.wav" (world (final good_body Sim.fresh))
  = false
  /\ os_path_exists "/tmp/output/abc" (world (final good_body Sim.fresh))
     = false.
Proof.
  destruct (successful_request_removes_scratch (L := sim_disk_laws)
              good_body Sim.fresh)
    as (data & i & ib & ik & sid & Hd & Hi & Hp & Hs & H).
  - reflexivity.
  - intros p e. vm_compute. intuition discriminate.
  - intros p e. vm_compute. intuition discriminate.
  - injection Hd as <-. cbn in Hi, Hs. injection Hi as <-.
    injection Hs as <-. cbn in Hp. injection Hp as <- <-. exact H.
Defined.

(** C2 as stated fails: both fields are present and not empty, the input URI
    names a bucket and no key, and the request is answered 500 with no call
    made, hence without the subprocess.  A request for an object the input
    bucket does not hold stops at the download. *)
Lemma present_fields_do_not_reach_tool :
  let d := [("input_s3_uri", JStr "s3://in");
            ("output_s3_prefix", JStr "s3://out/stems");
            ("session_id", JStr "abc")] in
  dict_lookup "input_s3_uri" d = Some (JStr "s3://in")
  /\ dict_lookup "output_s3_prefix" d = Some (JStr "s3://out/stems")
  /\ calls (final (Returned (JObj d)) Sim.fresh) = []
  /\ status (Returned (JObj d)) Sim.fresh = 500%Z
  /\ (~ exists cmd r,
          In (Run cmd r) (calls (final (Returned (JObj d)) Sim.fresh)))
  /\ map kind_of
       (calls (final (body "s3://in/songs/other.wav" "s3://out/stems" "abc")
                 Sim.fresh))
     = [KDownload].
Proof.
  vm_compute. repeat split. intros (cmd & r & []).
Qed.

(** C3 as stated fails twice.  When the output bucket refuses the upload,
    the tool has succeeded and written the two stems, and the answer is 500.
    When the output prefix ends with a separator, the URIs of the response
    are not [s3://<bucket>/<prefix>/<session_id>/<filename>] for the prefix
    that [parse_s3_uri] returned. *)
Lemma two_stems_not_always_reported :
  (let w := Sim.with_writable Sim.fresh [] in
   In (Run (demucs_cmd "/tmp/output/abc" "/tmp/uploads/song.wav")
           (Returned (mkCompleted 0 EmptyString EmptyString)))
      (calls (final good_body w))
   /\ In (Listdir "/tmp/output/abc/htdemucs/song"
                  (Returned ["vocals.wav"; "no_vocals.wav"]))
         (calls (final good_body w))
   /\ status good_body w = 500%Z)
  /\
  (let loaded := body "s3://in/songs/song.wav" "s3://out/stems/" "abc" in
   parse_s3_uri (JStr "s3://out/stems/") = Returned ("out", "stems/")
   /\ response loaded Sim.fresh
      = Returned
          (success_response (JStr "abc")
             [uploaded_entry "vocals.wav" "s3://out/stems/abc/vocals.wav";
              uploaded_entry "no_vocals.wav"
                "s3://out/stems/abc/no_vocals.wav"])
   /\ "s3://out/stems/abc/vocals.wav"
      <> "s3://" ++ "out" ++ "/" ++ "stems/" ++ "/" ++ "abc" ++ "/"
           ++ "vocals.wav").
Proof.
  split.
  - vm_compute. repeat split; auto 10.
  - vm_compute. repeat split. discriminate.
Qed.

(** C10 as stated fails where the removal leaves no separator.  Read with
    the leading scheme stripped, [s3://s3://s3://] has the bucket [s3:] and
    the key [/s3://], which contains the scheme; [str.replace] removes all
    three occurrences, the empty text is not split, and the function raises
    [IndexError]: it returns no pair, hence none that differs. *)
Lemma key_with_scheme_may_return_no_pair :
  parse_leading_scheme "s3://s3://s3://" = Some ("s3:", "/s3://")
  /\ occurs "s3://" "/s3://"
  /\ Py.str_replace "s3://" EmptyString "s3://s3://s3://" = EmptyString
  /\ parse_s3_uri (JStr "s3://s3://s3://") = Raised IndexError
  /\ ~ (exists b k,
          parse_s3_uri (JStr "s3://s3://s3://") = Returned (b, k)
          /\ (b, k) <> ("s3:", "/s3://")).
Proof.
  split; [reflexivity|]. split; [now exists "/", EmptyString|].
  split; [reflexivity|]. split; [reflexivity|].
  intros (b & k & H & _). discriminate H.
Qed.

(** ** The theorems at concrete requests *)

Lemma missing_field_gives_400_witness :
  let d := [("input_s3_uri", JStr "s3://in/songs/song.wav")] in
  dict_lookup "output_s3_prefix" d = None
  /\ serve (Returned (JObj d)) Sim.fresh
     = (start Sim.fresh,
        Returned
          (JObj [("error", JStr "Missing input_s3_uri or output_s3_prefix")],
           400%Z)).
Proof.
  split; [reflexivity|].
  apply (missing_field_gives_400
           [("input_s3_uri", JStr "s3://in/songs/song.wav")] Sim.fresh).
  right. reflexivity.
Defined.

Lemma falsy_field_gives_400_witness :
  let d := [("input_s3_uri", JStr EmptyString);
            ("output_s3_prefix", JStr "s3://out/stems")] in
  truthy (JStr EmptyString) = false
  /\ serve (Returned (JObj d)) Sim.fresh
     = (start Sim.fresh, Returned missing_fields_response).
Proof.
  split; [reflexivity|].
  apply (falsy_field_gives_400
           [("input_s3_uri", JStr EmptyString);
            ("output_s3_prefix", JStr "s3://out/stems")]
           (JStr EmptyString) Sim.fresh).
  - left. reflexivity.
  - reflexivity.
Defined.

Lemma uri_without_separator_gives_500_witness :
  no_separator "s3://in"
  /\ parse_s3_uri (JStr "s3://in") = Raised IndexError
  /\ exn_class IndexError = "IndexError"
  /\ exists e,
       serve (body "s3://in" "s3://out/stems" "abc") Sim.fresh
       = (mkState Sim.fresh [error_message e] [],
          Returned (JObj [("error", JStr (error_message e))], 500%Z))
       /\ ((exists s, JStr "s3://in" = JStr s) -> e = IndexError).
Proof.
  split; [reflexivity|].
  apply (uri_without_separator_gives_500
           [("input_s3_uri", JStr "s3://in");
            ("output_s3_prefix", JStr "s3://out/stems");
            ("session_id", JStr "abc")]
           (JStr "s3://in") (JStr "s3://out/stems") "s3://in" Sim.fresh);
    try reflexivity.
  left. reflexivity.
Defined.

Lemma tool_failure_gives_500_witness :
  let w := Sim.with_tool Sim.fresh 1 "CUDA out of memory" in
  In (Run (demucs_cmd "/tmp/output/abc" "/tmp/uploads/song.wav")
          (Returned (mkCompleted 1 EmptyString "CUDA out of memory")))
     (calls (final good_body w))
  /\ exists msg,
       response good_body w = Returned (JObj [("error", JStr msg)], 500%Z)
       /\ occurs "CUDA out of memory" msg.
Proof.
  assert (H : In (Run (demucs_cmd "/tmp/output/abc" "/tmp/uploads/song.wav")
                      (Returned
                         (mkCompleted 1 EmptyString "CUDA out of memory")))
                 (calls (final good_body
                           (Sim.with_tool Sim.fresh 1 "CUDA out of memory"))))
    by (vm_compute; auto).
  split; [exact H|].
  apply (tool_failure_gives_500 good_body
           (Sim.with_tool Sim.fresh 1 "CUDA out of memory") _ _ H).
  discriminate.
Defined.


Lemma two_stems_are_reported_witness :
  exists files,
    response good_body Sim.fresh
    = Returned (JObj [("status", JStr "success");
                      ("session_id", JStr "abc");
                      ("output_files", JArr files)], 200%Z)
    /\ Permutation files
         [stem_entry "out" "stems" "abc" "vocals.wav";
          stem_entry "out" "stems" "abc" "no_vocals.wav"].
Proof.
  refine (proj2 (two_stems_are_reported good_body Sim.fresh
           (JObj [("input_s3_uri", JStr "s3://in/songs/song.wav");
                  ("output_s3_prefix", JStr "s3://out/stems");
                  ("session_id", JStr "abc")])
           (JStr "s3://in/songs/song.wav") (JStr "s3://out/stems")
           "in" "songs/song.wav" "out" "stems" "abc"
           (demucs_cmd "/tmp/output/abc" "/tmp/uploads/song.wav")
           (mkCompleted 0 EmptyString EmptyString)
           "/tmp/output/abc/htdemucs/song"
           ["vocals.wav"; "no_vocals.wav"]
           eq_refl eq_refl eq_refl eq_refl eq_refl eq_refl _ eq_refl _
           (Permutation_refl _) _)).
  - vm_compute. auto 10.
  - vm_compute. auto 10.
  - vm_compute. intros p b k r H.
    repeat (destruct H as [H | H]; [try discriminate H; now inversion H|]).
    destruct H.
Defined.

Lemma valid_request_reaches_tool_witness :
  status good_body Sim.fresh <> 400%Z
  /\ exists r,
       In (Run (demucs_cmd "/tmp/output/abc" "/tmp/uploads/song.wav") r)
          (calls (final good_body Sim.fresh)).
Proof.
  destruct (valid_request_reaches_tool
              [("input_s3_uri", JStr "s3://in/songs/song.wav");
               ("output_s3_prefix", JStr "s3://out/stems");
               ("session_id", JStr "abc")]
              (JStr "s3://in/songs/song.wav") (JStr "s3://out/stems")
              Sim.fresh eq_refl eq_refl eq_refl eq_refl) as [H400 Hrun].
  split; [exact H400|].
  exact (Hrun "in" "songs/song.wav" "out" "stems" "abc" _ _
           eq_refl eq_refl eq_refl eq_refl eq_refl).
Defined.

Lemma scheme_removed_everywhere_witness :
  let pieces := [EmptyString; "bucket/path/to/"; "object.wav"] in
  Forall scheme_free pieces
  /\ parse_s3_uri (JStr (Py.str_join "s3://" pieces))
     = Returned ("bucket", "path/to/object.wav")
  /\ parse_leading_scheme "s3://bucket/path/to/s3://object.wav"
     = Some ("bucket", "path/to/s3://object.wav")
  /\ occurs "s3://" "path/to/s3://object.wav"
  /\ ((no_separator "s3://bucket/path/to/s3://object.wav"
       /\ parse_s3_uri (JStr "s3://bucket/path/to/s3://object.wav")
          = Raised IndexError)
      \/ (exists b k,
             parse_s3_uri (JStr "s3://bucket/path/to/s3://object.wav")
             = Returned (b, k)
             /\ (b, k) <> ("bucket", "path/to/s3://object.wav")
             /\ b ++ "/" ++ k
                = Py.str_replace "s3://" EmptyString
                    ("bucket" ++ "/" ++ "path/to/s3://object.wav")
             /\ String.length (b ++ "/" ++ k) + 5
                <= String.length
                     ("bucket" ++ "/" ++ "path/to/s3://object.wav"))).
Proof.
  intros pieces.
  assert (F : Forall scheme_free pieces)
    by (repeat constructor; apply not_occurs_scheme; vm_compute; lia).
  assert (O : occurs "s3://" "path/to/s3://object.wav")
    by (exists "path/to/", "object.wav"; reflexivity).
  split; [exact F|]. split.
  - exact (proj1 (proj1 (proj2 scheme_removed_everywhere) pieces F)
             "bucket" "path/to/object.wav" eq_refl eq_refl).
  - split; [reflexivity|]. split; [exact O|].
    exact (proj2 (proj2 scheme_removed_everywhere)
             "s3://bucket/path/to/s3://object.wav" "bucket"
             "path/to/s3://object.wav" eq_refl O).
Defined.

(** ** The order of the calls of a request *)

Section Protocol.

Context {World : Type} `{P : Platform World}.

(** The calls of the loop: one upload per name, in the order of the names,
    up to the first upload that raises. *)
Lemma upload_loop_history (dir bucket pre : string) (sid : json) :
  forall (names : list string) (acc : list json) (st st' : State)
         (r : outcome (list json)),
    upload_loop dir bucket pre sid names acc st = (st', r) ->
    let up n o :=
      Upload (Py.os_path_join dir [n]) bucket
             (Py.str_rstrip "/" pre ++ "/" ++ fstr sid ++ "/" ++ n) o in
    match r with
    | Returned l =>
        l = (acc ++ map (entry_for bucket pre sid) names)%list
        /\ calls st'
           = (rev (map (fun n => up n (Returned tt)) names) ++ calls st)%list
    | Raised e =>
        exists done failed rest,
          names = (done ++ failed :: rest)%list
          /\ calls st'
             = (up failed (Raised e)
                  :: rev (map (fun n => up n (Returned tt)) done)
                  ++ calls st)%list
    end.
Proof.
  induction names as [|name names IH]; intros acc st st' r E up.
  - cbn [upload_loop] in E. run_monad_in E. leaf E. cbn.
    now rewrite app_nil_r.
  - cbn [upload_loop] in E. destruct st as [w0 out cs]. run_monad_in E.
    case_step E. case_step E.
    + leaf E. exists [], name, names. split; reflexivity.
    + apply IH in E. cbn [calls] in E. destruct a. destruct r as [e | l].
      * destruct E as (done & failed & rest & -> & ->).
        exists (name :: done), failed, rest. split; [reflexivity|].
        cbn [map rev]. now rewrite <- !app_assoc.
      * destruct E as [-> ->]. split.
        -- now rewrite <- app_assoc.
        -- cbn [map rev]. now rewrite <- !app_assoc.
Qed.

(** The calls of the cleanup follow one of its seven courses. *)
Lemma cleanup_runs (input_path output_path : string) (st : State) :
  exists st' h,
    cleanup_local_files input_path output_path st = (st', Returned tt)
    /\ cleanup_history input_path output_path h
    /\ calls st' = (rev h ++ calls st)%list.
Proof.
  destruct (cleanup_local_files input_path output_path st) as [st' r] eqn:E.
  unfold cleanup_local_files in E. destruct st as [w0 out cs].
  run_monad_in E.
  repeat case_step E; leaf E;
    repeat match goal with u : unit |- _ => destruct u end;
    eexists; eexists; (split; [reflexivity|]); cbn [calls];
    match goal with
    | |- _ /\ ?l = _ =>
        let rec go l :=
          lazymatch l with
          | cs => constr:(@nil Call)
          | ?x :: ?l' => let r := go l' in constr:(x :: r)
          end in
        let evs := go l in
        split; [|instantiate (1 := rev evs); cbn [rev app]; reflexivity]
    end;
    cbn [rev app]; constructor.
Qed.

(** Every request either makes no call or follows the protocol. *)
Lemma serve_protocol (loaded : outcome json) (w : World) :
  calls (final loaded w) = []
  \/ exists data i o sidv ib ik ob op resp,
       loaded = Returned data
       /\ py_get data "input_s3_uri" JNull = Returned i
       /\ py_get data "output_s3_prefix" JNull = Returned o
       /\ py_get data "session_id" (JStr "default") = Returned sidv
       /\ truthy i = true /\ truthy o = true
       /\ parse_s3_uri i = Returned (ib, ik)
       /\ parse_s3_uri o = Returned (ob, op)
       /\ response loaded w = Returned resp
       /\ protocol ib ik ob op sidv (history loaded w) resp.
Proof.
  unfold history, response, final.
  destruct (serve loaded w) as [st r] eqn:E. cbn [fst snd].
  unfold serve, invocations, invocations_try, start in E.
  run_monad_in E.
  repeat case_step E.
  all: try leaf E.
  all: cbn [calls].
  all: try solve [left; reflexivity].
  all: repeat match goal with u : unit |- _ => destruct u end.
  all: try match goal with
           | Hb : negb (truthy _) || negb (truthy _) = false |- _ =>
               apply orb_false_iff in Hb as [Ti To];
               apply negb_false_iff in Ti; apply negb_false_iff in To
           end.
  all: try match goal with
           | Hb : negb (returncode _ =? 0)%Z = false |- _ =>
               apply negb_false_iff, Z.eqb_eq in Hb
           | Hb : negb (returncode _ =? 0)%Z = true |- _ =>
               apply negb_true_iff, Z.eqb_neq in Hb
           end.
  all: try match goal with
           | Hf : fspath ?v = Returned _ |- _ =>
               destruct v; try discriminate Hf; cbn in Hf;
               injection Hf as <-
           end.
  all: try match goal with
           | Hb : negb ?x = true |- _ =>
               apply negb_true_iff in Hb; rewrite ?Hb
           | Hb : negb ?x = false |- _ =>
               apply negb_false_iff in Hb; rewrite ?Hb
           end.
  all: try solve
    [ right; do 9 eexists;
      repeat (split; [eassumption || reflexivity|]);
      cbn [rev app]; econstructor; eauto ].
  - (* an upload raised *)
    match goal with
    | H : upload_loop _ _ _ _ _ _ _ = _ |- _ =>
        apply upload_loop_history in H;
        destruct H as (done & failed & rest & -> & Hc)
    end.
    cbn [calls fstr] in Hc. subst.
    right. do 9 eexists.
    repeat (split; [eassumption || reflexivity|]).
    match goal with
    | Hx : os_path_exists _ _ = true |- _ => rewrite Hx
    end.
    repeat (rewrite ?rev_app_distr, ?rev_involutive; cbn [rev app];
            rewrite <- ?app_assoc).
    apply (upload_raised _ _ _ _ _ _ _ done failed rest); auto.
  - (* the cleanup does not raise *)
    match goal with
    | H : cleanup_local_files ?a ?b ?s = _ |- _ =>
        destruct (cleanup_runs a b s) as (st' & h & Ec & _);
        rewrite Ec in H; discriminate H
    end.
  - (* the request is served *)
    match goal with
    | H : cleanup_local_files ?a ?b ?s = _ |- _ =>
        destruct (cleanup_runs a b s) as (st' & h & Ec & Hh & Hc2);
        rewrite Ec in H; apply pair_equal_spec in H; destruct H as [<- _]
    end.
    match goal with
    | H : upload_loop _ _ _ _ _ _ _ = _ |- _ =>
        apply upload_loop_history in H; destruct H as [Hl Hc1]
    end.
    cbn [calls fstr app] in Hc1, Hl. rewrite Hc2, Hc1. subst.
    right. do 9 eexists.
    repeat (split; [eassumption || reflexivity|]).
    match goal with
    | Hx : os_path_exists _ _ = true |- _ => rewrite Hx
    end.
    repeat (rewrite ?rev_app_distr, ?rev_involutive; cbn [rev app];
            rewrite <- ?app_assoc).
    apply (request_served _ _ _ _ _ _ _ _ h); auto.
Qed.

End Protocol.

(** ** What a request calls, and when *)

Section Order.

Context {World : Type} `{P : Platform World}.

Lemma in_history (loaded : outcome json) (w : World) (ev : Call) :
  In ev (calls (final loaded w)) <-> In ev (history loaded w).
Proof. apply in_rev. Qed.

Lemma calls_of_history (loaded : outcome json) (w : World) :
  calls (final loaded w) = rev (history loaded w).
Proof. unfold history. now rewrite rev_involutive. Qed.

(** X1: a download that raises ends the request: the response is the 500
    built from that exception, and the download is the only call made, so
    the tool is not started, nothing is uploaded and nothing is deleted. *)
Theorem download_failure_ends_request
    (loaded : outcome json) (w : World) (b k p : string) (e : Exn) :
  In (Download b k p (Raised e)) (calls (final loaded w)) ->
  response loaded w = Returned (error_response e)
  /\ calls (final loaded w) = [Download b k p (Raised e)].
Proof.
  intros Hin.
  destruct (serve_protocol loaded w)
    as [Hnil | (data & i & o & sidv & ib & ik & ob & op & resp & _ & _ & _
                & _ & _ & _ & _ & _ & Hr & Hp)].
  - rewrite Hnil in Hin. destruct Hin.
  - rewrite calls_of_history. apply in_history in Hin.
    remember (history loaded w) as h eqn:Eh.
    destruct Hp;
      try match goal with Hc : cleanup_history _ _ _ |- _ => destruct Hc end;
      history_cases; try discriminate.
    injection Hin as <- <- <- <-. split; [exact Hr | reflexivity].
Qed.

(** X2: a [session_id] that is present and is not a string passes the
    validation; the request fails in [os.path.join] with a [TypeError], and
    that after the input has been downloaded: the download is the only call,
    and the response is a 500. *)
Theorem non_string_session_id_gives_500
    (data v : json) (w : World) (b k p : string) :
  py_get data "session_id" (JStr "default") = Returned v ->
  (forall s, v <> JStr s) ->
  In (Download b k p (Returned tt)) (calls (final (Returned data) w)) ->
  exists e,
    fspath v = Raised e
    /\ exn_class e = "TypeError"
    /\ response (Returned data) w = Returned (error_response e)
    /\ calls (final (Returned data) w) = [Download b k p (Returned tt)].
Proof.
  intros Hv Hns Hin.
  destruct (serve_protocol (Returned data) w)
    as [Hnil | (data' & i & o & sidv & ib & ik & ob & op & resp & Hd & _ & _
                & Hs & _ & _ & _ & _ & Hr & Hp)].
  - rewrite Hnil in Hin. destruct Hin.
  - injection Hd as <-. rewrite Hv in Hs. injection Hs as <-.
    rewrite calls_of_history. apply in_history in Hin.
    remember (history (Returned data) w) as h eqn:Eh.
    destruct Hp; try (subst v; now elim (Hns sdir)).
    + history_cases; discriminate.
    + history_cases. injection Hin as <- <- <-.
      exists e. split; [assumption|]. split; [|split; [exact Hr|reflexivity]].
      destruct v; cbn in H; try (now injection H as <-).
      discriminate.
Qed.

(** X3: an upload that raises ends the request: the response is the 500
    built from that exception and the failed upload is the last call, so the
    files listed after it are not uploaded, the uploads made before it stay,
    and the cleanup does not run. *)
Theorem upload_failure_ends_request
    (loaded : outcome json) (w : World) (p b k : string) (e : Exn) :
  In (Upload p b k (Raised e)) (calls (final loaded w)) ->
  response loaded w = Returned (error_response e)
  /\ hd_error (calls (final loaded w)) = Some (Upload p b k (Raised e)).
Proof.
  intros Hin.
  destruct (serve_protocol loaded w)
    as [Hnil | (data & i & o & sidv & ib & ik & ob & op & resp & _ & _ & _
                & _ & _ & _ & _ & _ & Hr & Hp)].
  - rewrite Hnil in Hin. destruct Hin.
  - rewrite calls_of_history. apply in_history in Hin.
    remember (history loaded w) as h eqn:Eh.
    destruct Hp;
      try match goal with Hc : cleanup_history _ _ _ |- _ => destruct Hc end;
      history_cases; try discriminate.
    unfold upload_call in Hin. injection Hin as <- <- <- <-.
    split; [exact Hr|].
    rewrite !rev_app_distr. reflexivity.
Qed.

(** X4: nothing is uploaded unless the tool has returned with exit code 0:
    every upload of a request comes with a subprocess call that returned 0. *)
Theorem uploads_only_after_tool_success
    (loaded : outcome json) (w : World) (p b k : string) (r : outcome unit) :
  In (Upload p b k r) (calls (final loaded w)) ->
  exists cmd cp,
    In (Run cmd (Returned cp)) (calls (final loaded w))
    /\ returncode cp = 0%Z.
Proof.
  intros Hin.
  destruct (serve_protocol loaded w)
    as [Hnil | (data & i & o & sidv & ib & ik & ob & op & resp & _ & _ & _
                & _ & _ & _ & _ & _ & Hr & Hp)].
  - rewrite Hnil in Hin. destruct Hin.
  - apply in_history in Hin.
    assert (G : exists cmd cp,
               In (Run cmd (Returned cp)) (history loaded w)
               /\ returncode cp = 0%Z).
    { remember (history loaded w) as h eqn:Eh.
      destruct Hp;
        try match goal with Hc : cleanup_history _ _ _ |- _ => destruct Hc end;
        history_cases; try discriminate;
        do 2 eexists; (split; [|eassumption]); cbn; auto. }
    destruct G as (cmd & cp & G & Hc). exists cmd, cp.
    split; [now apply in_history | exact Hc].
Qed.

(** X5: what is uploaded is a file of the listing, and it goes to the bucket
    of [output_s3_prefix] under the key
    [<prefix without trailing separators>/<session_id>/<filename>]; the local
    file is the one of that name in the listed directory. *)
Theorem uploads_go_under_output_prefix
    (data o : json) (w : World) (ob op sid p b k : string) (r : outcome unit) :
  py_get data "output_s3_prefix" JNull = Returned o ->
  parse_s3_uri o = Returned (ob, op) ->
  py_get data "session_id" (JStr "default") = Returned (JStr sid) ->
  In (Upload p b k r) (calls (final (Returned data) w)) ->
  b = ob
  /\ exists dir names name,
       In (Listdir dir (Returned names)) (calls (final (Returned data) w))
       /\ In name names
       /\ p = Py.os_path_join dir [name]
       /\ k = Py.str_rstrip "/" op ++ "/" ++ sid ++ "/" ++ name.
Proof.
  intros Ho Hpo Hs Hin.
  destruct (serve_protocol (Returned data) w)
    as [Hnil | (data' & i & o' & sidv & ib & ik & ob' & op' & resp & Hd & _
                & Ho' & Hs' & _ & _ & _ & Hpo' & Hr & Hp)].
  - rewrite Hnil in Hin. destruct Hin.
  - injection Hd as <-.
    rewrite Ho in Ho'. injection Ho' as <-.
    rewrite Hpo in Hpo'. injection Hpo' as <- <-.
    rewrite Hs in Hs'. injection Hs' as <-.
    apply in_history in Hin.
    assert (G : b = ob
                /\ exists dir names name,
                     In (Listdir dir (Returned names))
                        (history (Returned data) w)
                     /\ In name names
                     /\ p = Py.os_path_join dir [name]
                     /\ k = Py.str_rstrip "/" op ++ "/" ++ sid ++ "/" ++ name).
    { remember (history (Returned data) w) as h eqn:Eh.
      destruct Hp;
        try match goal with Hc : cleanup_history _ _ _ |- _ => destruct Hc end;
        history_cases; try discriminate;
        match goal with Hj : JStr _ = JStr _ |- _ => injection Hj as <- end;
        unfold upload_call in Hin; injection Hin as <- <- <- _;
        (split; [reflexivity|]);
        eexists; eexists; eexists;
        (split; [cbn; eauto 8|]);
        (split; [|split; reflexivity]);
        first [ eassumption
              | apply in_or_app; left; eassumption
              | apply in_or_app; right; now left ]. }
    destruct G as (-> & dir & names & name & G & Hn & -> & ->).
    split; [reflexivity|]. exists dir, names, name.
    split; [now apply in_history|]. auto.
Qed.

(** X6: the cleanup runs on success only: a request that called [os.remove]
    or [shutil.rmtree] is answered 200 and all its uploads returned. *)
Theorem deletions_only_on_success
    (loaded : outcome json) (w : World) (p : string) (r : outcome unit) :
  In (Remove p r) (calls (final loaded w))
  \/ In (Rmtree p r) (calls (final loaded w)) ->
  status loaded w = 200%Z
  /\ forall p' b k r',
       In (Upload p' b k r') (calls (final loaded w)) -> r' = Returned tt.
Proof.
  intros Hin.
  destruct (serve_protocol loaded w)
    as [Hnil | (data & i & o & sidv & ib & ik & ob & op & resp & _ & _ & _
                & _ & _ & _ & _ & _ & Hr & Hp)].
  - rewrite Hnil in Hin. destruct Hin as [[] | []].
  - unfold status. rewrite Hr.
    assert (G : snd resp = 200%Z
                /\ forall p' b k r',
                     In (Upload p' b k r') (history loaded w) ->
                     r' = Returned tt).
    { rewrite !in_history in Hin.
      remember (history loaded w) as h eqn:Eh.
      destruct Hp;
        try solve [destruct Hin as [Hin | Hin];
                   history_cases; discriminate].
      split; [reflexivity|].
      intros p' b k r' Hu.
      match goal with Hc : cleanup_history _ _ _ |- _ => destruct Hc end;
        history_cases; try discriminate;
        unfold upload_call in Hu; now injection Hu. }
    destruct G as [G1 G2]. destruct resp as [body code]. split; [exact G1|].
    intros p' b k r' Hu. apply in_history in Hu. eauto.
Qed.

(** X7: the cleanup deletes the scratch of its own request and nothing
    else: [os.remove] is called on the local input path only and
    [shutil.rmtree] on the session directory only. *)
Theorem deletions_touch_scratch_only
    (data i : json) (w : World) (ib ik sid : string) :
  py_get data "input_s3_uri" JNull = Returned i ->
  parse_s3_uri i = Returned (ib, ik) ->
  py_get data "session_id" (JStr "default") = Returned (JStr sid) ->
  (forall p r, In (Remove p r) (calls (final (Returned data) w)) ->
               p = Py.os_path_join UPLOAD_DIR [Py.os_path_basename ik])
  /\ (forall p r, In (Rmtree p r) (calls (final (Returned data) w)) ->
                  p = Py.os_path_join OUTPUT_DIR [sid]).
Proof.
  intros Hi Hpi Hs.
  destruct (serve_protocol (Returned data) w)
    as [Hnil | (data' & i' & o & sidv & ib' & ik' & ob & op & resp & Hd & Hi'
                & _ & Hs' & _ & _ & Hpi' & _ & Hr & Hp)].
  - rewrite Hnil. split; intros p r [].
  - injection Hd as <-.
    rewrite Hi in Hi'. injection Hi' as <-.
    rewrite Hpi in Hpi'. injection Hpi' as <- <-.
    rewrite Hs in Hs'. injection Hs' as <-.
    split; intros p r Hin; apply in_history in Hin;
      remember (history (Returned data) w) as h eqn:Eh;
      destruct Hp;
      try match goal with Hc : cleanup_history _ _ _ |- _ => destruct Hc end;
      history_cases; try discriminate;
      match goal with Hj : JStr _ = JStr _ |- _ => injection Hj as <- end;
      now injection Hin as <- _.
Qed.

End Order.

(** ** Paths *)

Lemma str_rfind_spec (c : ascii) (p : string) :
  (Py.str_rfind c p = (-1)%Z /\ Py.str_mem c p = false)
  \/ ((0 <= Py.str_rfind c p)%Z
      /\ Py.str_mem c (Py.str_drop (Z.to_nat (Py.str_rfind c p + 1)) p)
         = false).
Proof.
  induction p as [|a p IH]; [left; split; reflexivity|].
  cbn [Py.str_rfind].
  destruct IH as [[E M] | [L M]].
  - rewrite E. cbn [Z.leb Z.compare].
    destruct (Ascii.eqb a c) eqn:A.
    + right. split; [lia|]. exact M.
    + left. split; [reflexivity|]. cbn. now rewrite A, M.
  - destruct (Z.leb_spec 0 (Py.str_rfind c p)) as [_ | Hlt]; [|lia].
    right. split; [lia|].
    replace (Z.to_nat (Py.str_rfind c p + 1 + 1))
      with (S (Z.to_nat (Py.str_rfind c p + 1))) by lia.
    exact M.
Qed.

(** The base name of a path has no separator. *)
Lemma basename_no_separator (p : string) :
  Py.str_mem "/" (Py.os_path_basename p) = false.
Proof.
  unfold Py.os_path_basename.
  destruct (str_rfind_spec "/" p) as [[E M] | [_ M]]; [|exact M].
  rewrite E. exact M.
Qed.

Lemma not_absolute (name : string) :
  Py.str_mem "/" name = false -> Py.startswith "/" name = false.
Proof.
  destruct name as [|a name]; [reflexivity|].
  cbn [Py.str_mem]. intros H. apply orb_false_iff in H as [H _].
  rewrite Ascii.eqb_sym in H.
  unfold Py.startswith. cbn [Py.strip_prefix]. now rewrite H.
Qed.

(** The local input path lies directly in the upload directory. *)
Lemma local_input_path_in_upload_dir (key : string) :
  local_input_path key = "/tmp/uploads/" ++ Py.os_path_basename key.
Proof.
  unfold local_input_path, Py.os_path_join. cbn [fold_left].
  unfold Py.join_step.
  now rewrite (not_absolute _ (basename_no_separator key)).
Qed.

(** [os.path.join] drops what precedes an absolute component. *)
Lemma output_path_absolute (sid : string) :
  Py.startswith "/" sid = true -> output_path sid = sid.
Proof.
  intros H. unfold output_path, Py.os_path_join. cbn [fold_left].
  unfold Py.join_step. now rewrite H.
Qed.

(** ** Counting calls *)

Lemma count_kind_rev (k : kind) (l : list Call) :
  count_kind k (rev l) = count_kind k l.
Proof. unfold count_kind. now rewrite filter_rev, length_rev. Qed.

Lemma count_kind_app (k : kind) (l l' : list Call) :
  count_kind k (l ++ l') = count_kind k l + count_kind k l'.
Proof. unfold count_kind. now rewrite filter_app, length_app. Qed.

Lemma count_kind_uploads (k : kind) (f : string -> Call) (l : list string) :
  (forall n, kind_of (f n) = KUpload) ->
  count_kind k (map f l) = if kind_eqb KUpload k then length l else 0.
Proof.
  intros Hf. unfold count_kind.
  induction l as [|n l IH]; cbn [map filter]; [now destruct (kind_eqb _ _)|].
  rewrite Hf. destruct (kind_eqb KUpload k); cbn [length]; now rewrite IH.
Qed.

Section Shape.

Context {World : Type} `{P : Platform World}.

(** X8: the input is downloaded into the upload directory itself, whatever
    the key: the target of every download is [/tmp/uploads/] followed by a
    name without separator. *)
Theorem download_target_stays_in_upload_dir
    (loaded : outcome json) (w : World) (b k p : string) (r : outcome unit) :
  In (Download b k p r) (calls (final loaded w)) ->
  exists name,
    Py.str_mem "/" name = false /\ p = "/tmp/uploads/" ++ name.
Proof.
  intros Hin.
  destruct (serve_protocol loaded w)
    as [Hnil | (data & i & o & sidv & ib & ik & ob & op & resp & _ & _ & _
                & _ & _ & _ & _ & _ & Hr & Hp)].
  - rewrite Hnil in Hin. destruct Hin.
  - apply in_history in Hin. remember (history loaded w) as h eqn:Eh.
    exists (Py.os_path_basename ik).
    split; [apply basename_no_separator|].
    rewrite <- local_input_path_in_upload_dir.
    destruct Hp;
      try match goal with Hc : cleanup_history _ _ _ |- _ => destruct Hc end;
      history_cases; try discriminate;
      now injection Hin as _ _ <- _.
Qed.

(** X9: the download comes first: a request that makes any call has made
    the download of the input before it. *)
Theorem first_call_is_the_download
    (loaded : outcome json) (w : World) (ev : Call) :
  In ev (calls (final loaded w)) ->
  exists b k p r, hd_error (history loaded w) = Some (Download b k p r).
Proof.
  intros Hin.
  destruct (serve_protocol loaded w)
    as [Hnil | (data & i & o & sidv & ib & ik & ob & op & resp & _ & _ & _
                & _ & _ & _ & _ & _ & Hr & Hp)].
  - rewrite Hnil in Hin. destruct Hin.
  - destruct Hp; cbn; eauto.
Qed.

(** X10: a [session_id] that starts with a separator takes the session
    directory out of the output directory: [os.path.join] returns the
    [session_id] itself, so that is the directory the handler creates and the
    tree the cleanup deletes. *)
Theorem absolute_session_id_leaves_output_dir
    (data : json) (w : World) (sid : string) :
  py_get data "session_id" (JStr "default") = Returned (JStr sid) ->
  Py.startswith "/" sid = true ->
  (forall p r, In (Makedirs p r) (calls (final (Returned data) w)) -> p = sid)
  /\ (forall p r, In (Rmtree p r) (calls (final (Returned data) w)) -> p = sid).
Proof.
  intros Hs Habs.
  destruct (serve_protocol (Returned data) w)
    as [Hnil | (data' & i' & o & sidv & ib & ik & ob & op & resp & Hd & _
                & _ & Hs' & _ & _ & _ & _ & Hr & Hp)].
  - rewrite Hnil. split; intros p r [].
  - injection Hd as <-. rewrite Hs in Hs'. injection Hs' as <-.
    split; intros p r Hin; apply in_history in Hin;
      remember (history (Returned data) w) as h eqn:Eh;
      destruct Hp;
      try match goal with Hc : cleanup_history _ _ _ |- _ => destruct Hc end;
      history_cases; try discriminate;
      match goal with Hj : JStr _ = JStr _ |- _ => injection Hj as <- end;
      injection Hin as <- _; now apply output_path_absolute.
Qed.

(** X11: without a [session_id] in the body the session is [default]: the
    directory created is [/tmp/output/default], and a success response
    carries [default] as its [session_id]. *)
Theorem session_id_defaults_to_default
    (d : list (string * json)) (w : World) :
  dict_lookup "session_id" d = None ->
  (forall p r, In (Makedirs p r) (calls (final (Returned (JObj d)) w)) ->
               p = "/tmp/output/default")
  /\ (forall body,
        response (Returned (JObj d)) w = Returned (body, 200%Z) ->
        exists files,
          body = JObj [("status", JStr "success");
                       ("session_id", JStr "default");
                       ("output_files", JArr files)]).
Proof.
  intros Hnone.
  assert (Hdef : py_get (JObj d) "session_id" (JStr "default")
                 = Returned (JStr "default"))
    by (unfold py_get; now rewrite Hnone).
  split.
  - destruct (serve_protocol (Returned (JObj d)) w)
      as [Hnil | (data' & i' & o & sidv & ib & ik & ob & op & resp & Hd & _
                  & _ & Hs' & _ & _ & _ & _ & Hr & Hp)].
    + rewrite Hnil. intros p r [].
    + injection Hd as <-. rewrite Hdef in Hs'. injection Hs' as <-.
      intros p r Hin. apply in_history in Hin.
      remember (history (Returned (JObj d)) w) as h eqn:Eh.
      destruct Hp;
        try match goal with Hc : cleanup_history _ _ _ |- _ => destruct Hc end;
        history_cases; try discriminate;
        match goal with Hj : JStr _ = JStr _ |- _ => injection Hj as <- end;
        now injection Hin as <- _.
  - intros body Hb.
    destruct (serve_outcomes (Returned (JObj d)) w)
      as [(? & ? & ? & _ & _ & _ & _ & E) | [(e & E & _) | H]].
    + unfold response in Hb. rewrite E in Hb. discriminate.
    + rewrite E in Hb. discriminate.
    + destruct H as (data & ? & ? & sid & ? & ? & ? & ? & ? & names & H).
      destruct H as (Hd & _ & _ & Hs & _ & _ & _ & E & _).
      injection Hd as <-. rewrite Hdef in Hs. injection Hs as <-.
      rewrite E in Hb. injection Hb as <-. eauto.
Qed.

(** X12: nothing is retried: in one request the handler downloads at most
    once, creates the session directory at most once, starts the tool at
    most once, lists at most once and makes each deletion at most once. *)
Theorem no_call_is_repeated (loaded : outcome json) (w : World) :
  count_kind KDownload (calls (final loaded w)) <= 1
  /\ count_kind KMakedirs (calls (final loaded w)) <= 1
  /\ count_kind KRun (calls (final loaded w)) <= 1
  /\ count_kind KListdir (calls (final loaded w)) <= 1
  /\ count_kind KRemove (calls (final loaded w)) <= 1
  /\ count_kind KRmtree (calls (final loaded w)) <= 1.
Proof.
  destruct (serve_protocol loaded w)
    as [Hnil | (data & i & o & sidv & ib & ik & ob & op & resp & _ & _ & _
                & _ & _ & _ & _ & _ & Hr & Hp)].
  - rewrite Hnil. cbn. lia.
  - rewrite calls_of_history, !count_kind_rev.
    destruct Hp;
      try match goal with Hc : cleanup_history _ _ _ |- _ => destruct Hc end;
      rewrite ?count_kind_app, ?count_kind_uploads by reflexivity;
      cbn; lia.
Qed.

(** X13: when the listing returned and every upload returned, the request
    is answered 200 and [output_files] has one entry per listed name, in the
    order of the listing, each with its name and its URI; exactly that many
    uploads were made.  An empty directory gives a success with an empty
    list. *)
Theorem listed_files_are_reported
    (data o : json) (w : World) (ob op sid dir : string)
    (names : list string) :
  py_get data "output_s3_prefix" JNull = Returned o ->
  parse_s3_uri o = Returned (ob, op) ->
  py_get data "session_id" (JStr "default") = Returned (JStr sid) ->
  In (Listdir dir (Returned names)) (calls (final (Returned data) w)) ->
  (forall p b k r, In (Upload p b k r) (calls (final (Returned data) w)) ->
                   r = Returned tt) ->
  response (Returned data) w
  = Returned (JObj [("status", JStr "success");
                    ("session_id", JStr sid);
                    ("output_files",
                     JArr (map (stem_entry ob op sid) names))], 200%Z)
  /\ count_kind KUpload (calls (final (Returned data) w)) = length names.
Proof.
  intros Ho Hpo Hs Hin Hup.
  destruct (serve_protocol (Returned data) w)
    as [Hnil | (data' & i & o' & sidv & ib & ik & ob' & op' & resp & Hd & _
                & Ho' & Hs' & _ & _ & _ & Hpo' & Hr & Hp)].
  - rewrite Hnil in Hin. destruct Hin.
  - injection Hd as <-.
    rewrite Ho in Ho'. injection Ho' as <-.
    rewrite Hpo in Hpo'. injection Hpo' as <- <-.
    rewrite Hs in Hs'. injection Hs' as <-.
    assert (Hup' : forall p b k r,
               In (Upload p b k r) (history (Returned data) w) ->
               r = Returned tt)
      by (intros p b k r Hu; apply in_history in Hu; eauto).
    rewrite calls_of_history, count_kind_rev, Hr.
    apply in_history in Hin. clear Hup Hr.
    remember (history (Returned data) w) as h eqn:Eh.
    destruct Hp; try solve [history_cases; discriminate].
    + assert (Hx : Raised e = Returned tt :> outcome unit);
        [|discriminate Hx].
      eapply Hup'. apply in_or_app. right. apply in_or_app. right.
      left. reflexivity.
    + match goal with Hj : JStr _ = JStr _ |- _ => injection Hj as <- end.
      assert (names0 = names) as ->.
      { match goal with Hc : cleanup_history _ _ _ |- _ => destruct Hc end;
          history_cases; try discriminate; now injection Hin. }
      split; [reflexivity|].
      rewrite !count_kind_app, count_kind_uploads by reflexivity.
      match goal with Hc : cleanup_history _ _ _ |- _ => destruct Hc end;
        cbn; lia.
Qed.

(** X28: the command line of the tool is fixed: whatever the request, the
    subprocess is started with the interpreter, [-m demucs.separate -n
    htdemucs --two-stems vocals --name htdemucs -o], the session directory
    and the local input path, as separate arguments; of the request only the
    session directory and the base name of the input key enter it. *)
Theorem tool_command_is_fixed
    (loaded : outcome json) (w : World) (cmd : list string)
    (r : outcome CompletedProcess) :
  In (Run cmd r) (calls (final loaded w)) ->
  exists session_dir name,
    Py.str_mem "/" name = false
    /\ cmd = [sys_executable; "-m"; "demucs.separate";
              "-n"; "htdemucs"; "--two-stems"; "vocals";
              "--name"; "htdemucs";
              "-o"; Py.os_path_join OUTPUT_DIR [session_dir];
              "/tmp/uploads/" ++ name].
Proof.
  intros Hin.
  destruct (serve_protocol loaded w)
    as [Hnil | (data & i & o & sidv & ib & ik & ob & op & resp & _ & _ & _
                & _ & _ & _ & _ & _ & Hr & Hp)].
  - rewrite Hnil in Hin. destruct Hin.
  - apply in_history in Hin. remember (history loaded w) as h eqn:Eh.
    destruct Hp;
      try match goal with Hc : cleanup_history _ _ _ |- _ => destruct Hc end;
      history_cases; try discriminate;
      injection Hin as <- _;
      exists sdir, (Py.os_path_basename ik);
      (split; [apply basename_no_separator|]);
      unfold demucs_cmd; now rewrite local_input_path_in_upload_dir.
Qed.

End Shape.

(** ** Requests that fail, and what is answered *)

Section Answers.

Context {World : Type} `{P : Platform World}.

(** X14: when the tool exits with code 0 and the directory
    [<output_dir>/htdemucs/<input name without extension>] does not exist,
    the request is answered 500 with [Output not found. Demucs path may be
    wrong.]; the test of the directory is its last call, so nothing is
    listed, uploaded or deleted, and the world is as the tool left it. *)
Theorem missing_output_dir_gives_500
    (d : list (string * json)) (i o : json) (w w1 w2 w3 : World)
    (ib ik ob op sid : string) (cp : CompletedProcess) :
  dict_lookup "input_s3_uri" d = Some i ->
  dict_lookup "output_s3_prefix" d = Some o ->
  truthy i = true -> truthy o = true ->
  parse_s3_uri i = Returned (ib, ik) ->
  parse_s3_uri o = Returned (ob, op) ->
  py_get (JObj d) "session_id" (JStr "default") = Returned (JStr sid) ->
  s3_download_file ib ik (local_input_path ik) w = (w1, Returned tt) ->
  os_makedirs (output_path sid) w1 = (w2, Returned tt) ->
  subprocess_run (demucs_cmd (output_path sid) (local_input_path ik)) w2
  = (w3, Returned cp) ->
  returncode cp = 0%Z ->
  os_path_exists (separated_dir sid ik) w3 = false ->
  response (Returned (JObj d)) w
  = Returned
      (error_response
         (RuntimeError "Output not found. Demucs path may be wrong."))
  /\ world (final (Returned (JObj d)) w) = w3
  /\ history (Returned (JObj d)) w
     = [Download ib ik (local_input_path ik) (Returned tt);
        Makedirs (output_path sid) (Returned tt);
        Run (demucs_cmd (output_path sid) (local_input_path ik))
            (Returned cp);
        Exists (separated_dir sid ik) false].
Proof.
  intros Hi Ho Ti To Hpi Hpo Hs Hdl Hmk Hrun Hcode Hex.
  unfold separated_dir, local_input_path, output_path in *.
  unfold history, response, final.
  destruct (serve (Returned (JObj d)) w) as [st r] eqn:E. cbn [fst snd].
  unfold serve, invocations, invocations_try, start in E.
  run_monad_in E.
  rewrite (py_get_object _ _ _ JNull Hi), (py_get_object _ _ _ JNull Ho),
    Hs in E.
  rewrite Ti, To in E. cbn [negb orb] in E.
  rewrite Hpi, Hpo in E. cbv beta iota zeta in E.
  rewrite Hdl in E. cbn [fspath] in E. cbv beta iota zeta in E.
  rewrite Hmk in E. cbv beta iota zeta in E.
  rewrite Hrun in E. cbv beta iota zeta in E.
  rewrite Hcode in E. cbn [Z.eqb negb] in E.
  rewrite Hex in E. cbn [negb] in E.
  leaf E. repeat split.
Qed.

(** X15: the handler raises nothing: every request is answered, and the
    status is 200, 400 or 500. *)
Theorem handler_always_responds (loaded : outcome json) (w : World) :
  exists body code,
    response loaded w = Returned (body, code)
    /\ (code = 200 \/ code = 400 \/ code = 500)%Z.
Proof.
  destruct (serve_outcomes loaded w)
    as [(? & ? & ? & _ & _ & _ & _ & E) | [(e & E & _) | H]].
  - unfold response. rewrite E. do 2 eexists. split; [reflexivity|]. auto.
  - rewrite E. do 2 eexists. split; [reflexivity|]. auto.
  - destruct H as (? & ? & ? & ? & ? & ? & ? & ? & ? & ? & H).
    destruct H as (_ & _ & _ & _ & _ & _ & _ & E & _).
    rewrite E. do 2 eexists. split; [reflexivity|]. auto.
Qed.

(** X16: every 500 response has one shape and is logged: its body is
    [{"error": "Error: <str(e)>\n<traceback>"}] for the exception caught,
    and that text was printed. *)
Theorem errors_are_printed
    (loaded : outcome json) (w : World) (body : json) :
  response loaded w = Returned (body, 500%Z) ->
  exists e,
    body = JObj [("error",
                  JStr ("Error: " ++ exn_str e ++ nl
                          ++ traceback_format_exc e))]
    /\ In ("Error: " ++ exn_str e ++ nl ++ traceback_format_exc e)
          (stdout (final loaded w)).
Proof.
  intros Hb.
  destruct (serve_outcomes loaded w)
    as [(? & ? & ? & _ & _ & _ & _ & E) | [(e & E & Hlog & _) | H]].
  - unfold response in Hb. rewrite E in Hb. discriminate.
  - rewrite E in Hb. injection Hb as <-. exists e. split; [reflexivity|].
    exact Hlog.
  - destruct H as (? & ? & ? & ? & ? & ? & ? & ? & ? & ? & H).
    destruct H as (_ & _ & _ & _ & _ & _ & _ & E & _).
    rewrite E in Hb. discriminate.
Qed.

(** X17: for a body that is a JSON object, the status is 400 exactly when
    [input_s3_uri] or [output_s3_prefix] is absent or has a value Python
    takes for false ([i] and [o] are what [data.get] returns for them). *)
Theorem status_400_iff_field_missing_or_falsy
    (d : list (string * json)) (i o : json) (w : World) :
  py_get (JObj d) "input_s3_uri" JNull = Returned i ->
  py_get (JObj d) "output_s3_prefix" JNull = Returned o ->
  status (Returned (JObj d)) w = 400%Z
  <-> truthy i = false \/ truthy o = false.
Proof.
  intros Hi Ho. split.
  - intros Hs.
    destruct (serve_outcomes (Returned (JObj d)) w)
      as [(data & i' & o' & Hd & Hi' & Ho' & Hf & _) | [(e & E & _) | H]].
    + injection Hd as <-. rewrite Hi in Hi'. rewrite Ho in Ho'.
      injection Hi' as <-. injection Ho' as <-. exact Hf.
    + unfold status in Hs. rewrite E in Hs. discriminate.
    + destruct H as (? & ? & ? & ? & ? & ? & ? & ? & ? & ? & H).
      destruct H as (_ & _ & _ & _ & _ & _ & _ & E & _).
      unfold status in Hs. rewrite E in Hs. discriminate.
  - intros Hf. unfold status, response, serve, invocations, invocations_try.
    run_monad. rewrite Hi, Ho. unfold py_get.
    destruct (dict_lookup "session_id" d);
      destruct Hf as [-> | ->]; cbn [negb orb]; rewrite ?orb_true_r;
      reflexivity.
Qed.

(** X18: a body that is not a JSON object is answered 500, not 400, and
    without any call: when the body cannot be decoded the exception of
    [json.loads] is reported, and when it decodes to another JSON value the
    [AttributeError] of [data.get]. *)
Theorem body_that_is_no_object_gives_500
    (loaded : outcome json) (w : World) :
  (forall d, loaded <> Returned (JObj d)) ->
  exists e,
    serve loaded w
    = (mkState w [error_message e] [], Returned (error_response e))
    /\ (forall e', loaded = Raised e' -> e = e')
    /\ (forall v, loaded = Returned v -> e = AttributeError v "get").
Proof.
  intros Hno. destruct loaded as [e | v].
  - exists e. split; [reflexivity|]. split; [now intros e' [= ->]|].
    intros v [=].
  - exists (AttributeError v "get").
    split; [|split; [intros e' [=] | now intros v' [= ->]]].
    destruct v; try reflexivity. now elim (Hno members).
Qed.

(** X19: a URI field whose value is not a string, but which Python takes
    for true (a number, [true], a non-empty list or object), passes the
    validation; [parse_s3_uri] then raises [AttributeError] and the request
    is answered 500 before any call. *)
Theorem non_string_uri_gives_500
    (d : list (string * json)) (i o v : json) (w : World) :
  dict_lookup "input_s3_uri" d = Some i ->
  dict_lookup "output_s3_prefix" d = Some o ->
  truthy i = true -> truthy o = true ->
  (forall s, v <> JStr s) ->
  v = i \/ ((exists bk, parse_s3_uri i = Returned bk) /\ v = o) ->
  serve (Returned (JObj d)) w
  = (mkState w [error_message (AttributeError v "replace")] [],
     Returned (error_response (AttributeError v "replace"))).
Proof.
  intros Hi Ho Ti To Hv Hor.
  assert (Hp : parse_s3_uri v = Raised (AttributeError v "replace")).
  { destruct v; try reflexivity. now elim (Hv s). }
  unfold serve, invocations, invocations_try, py_get, start. run_monad.
  rewrite Hi, Ho. destruct (dict_lookup "session_id" d);
    rewrite Ti, To; cbn [negb orb];
    destruct Hor as [<- | [([ib ik] & Hpi) <-]];
    rewrite ?Hpi, Hp; reflexivity.
Qed.

End Answers.

(** ** More on the decomposition of URIs *)

(** X20: a leading scheme changes nothing: [parse_s3_uri] gives the same
    result, or raises the same exception, for a text and for that text
    behind [s3://]; so a URI without the scheme is accepted as well. *)
Theorem parse_s3_uri_ignores_leading_scheme (t : string) :
  parse_s3_uri (JStr ("s3://" ++ t)) = parse_s3_uri (JStr t).
Proof. unfold parse_s3_uri. now rewrite str_replace_leading. Qed.

(** X21: what [parse_s3_uri] returns is a split at the first separator: the
    bucket has no separator, and bucket, separator and key together are the
    text of the URI without the scheme. *)
Theorem parse_s3_uri_splits_at_first_separator (u bucket key : string) :
  parse_s3_uri (JStr u) = Returned (bucket, key) ->
  Py.str_mem "/" bucket = false
  /\ Py.str_replace "s3://" EmptyString u = bucket ++ "/" ++ key.
Proof.
  intros H. split.
  - unfold parse_s3_uri in H.
    destruct (Py.str_split1 "/" (Py.str_replace "s3://" EmptyString u))
      as [|x [|y l]] eqn:E; try discriminate.
    cbn in H. injection H as <- <-.
    destruct (str_split1_shape "/" (Py.str_replace "s3://" EmptyString u))
      as [[E' _] | (x' & y' & E' & _)]; rewrite E' in E; [discriminate|].
    injection E as <- <- <-.
    exact (str_split1_head_no_separator _ _ _ E').
  - apply parse_s3_uri_returned in H as (s & [= <-] & H). exact H.
Qed.

(** X22: on a string, [parse_s3_uri] raises exactly when no separator is
    left once the scheme is removed, and what it raises then is the
    [IndexError] of the subscript; it raises nothing else. *)
Theorem parse_s3_uri_raises_iff_no_separator (u : string) :
  (parse_s3_uri (JStr u) = Raised IndexError <-> no_separator u)
  /\ (forall e, parse_s3_uri (JStr u) = Raised e -> e = IndexError).
Proof.
  split; [split|].
  - unfold no_separator, parse_s3_uri.
    destruct (str_split1_shape "/" (Py.str_replace "s3://" EmptyString u))
      as [[E N] | (x & y & E & Es)]; rewrite E; cbn; [|discriminate].
    intros _.
    destruct (Py.str_mem "/" (Py.str_replace "s3://" EmptyString u)) eqn:M;
      [|reflexivity].
    exfalso. apply N. clear - M.
    induction (Py.str_replace "s3://" EmptyString u) as [|c s IH];
      [discriminate|].
    cbn [Py.str_mem] in M. destruct (Ascii.eqb_spec c "/") as [-> | _].
    + now exists EmptyString, s.
    + destruct (IH M) as (a & b & ->). now exists (String c a), b.
  - apply parse_s3_uri_no_separator.
  - unfold parse_s3_uri. intros e.
    destruct (Py.str_split1 "/" (Py.str_replace "s3://" EmptyString u))
      as [|x [|y l]]; cbn; congruence.
Qed.

(** ** More on the cleanup *)

Section Cleanup.

Context {World : Type} `{P : Platform World}.

(** X23: with neither path on disk the cleanup deletes nothing: it makes
    the two existence tests, prints [Cleaned up local files] and leaves the
    world as it was. *)
Theorem cleanup_with_nothing_to_delete
    (input_path output_path : string) (st : State) :
  os_path_exists input_path (world st) = false ->
  os_path_exists output_path (world st) = false ->
  cleanup_local_files input_path output_path st
  = (mkState (world st) ("Cleaned up local files" :: stdout st)
       (Exists output_path false :: Exists input_path false :: calls st),
     Returned tt).
Proof.
  intros Hi Ho. unfold cleanup_local_files. destruct st as [w0 out cs].
  run_monad. cbn [world] in Hi, Ho. rewrite Hi. cbv beta iota zeta.
  rewrite Ho. reflexivity.
Qed.

(** X24: when [os.remove] raises on the input file, the cleanup stops there:
    it prints [Cleanup failed: <e>] and returns without testing or deleting
    the session directory, which stays on disk. *)
Theorem cleanup_stops_at_failed_remove
    (input_path output_path : string) (st : State) (w' : World) (e : Exn) :
  os_path_exists input_path (world st) = true ->
  os_remove input_path (world st) = (w', Raised e) ->
  cleanup_local_files input_path output_path st
  = (mkState w' (("Cleanup failed: " ++ exn_str e) :: stdout st)
       (Remove input_path (Raised e) :: Exists input_path true :: calls st),
     Returned tt).
Proof.
  intros Hi Hr. unfold cleanup_local_files. destruct st as [w0 out cs].
  run_monad. cbn [world] in Hi, Hr. rewrite Hi. cbv beta iota zeta.
  rewrite Hr. reflexivity.
Qed.

(** X25: the cleanup is idempotent on a disk that obeys the laws of
    deletion: after a cleanup in which no deletion raised, a second cleanup
    of the same paths finds neither of them and deletes nothing. *)
Theorem second_cleanup_deletes_nothing {L : DiskLaws P}
    (input_path output_path : string) (st st' : State) :
  cleanup_local_files input_path output_path st = (st', Returned tt) ->
  (forall p e, ~ In (Remove p (Raised e)) (calls st')) ->
  (forall p e, ~ In (Rmtree p (Raised e)) (calls st')) ->
  cleanup_local_files input_path output_path st'
  = (mkState (world st') ("Cleaned up local files" :: stdout st')
       (Exists output_path false :: Exists input_path false :: calls st'),
     Returned tt).
Proof.
  intros E Hrm Hrt.
  destruct (cleanup_removes_scratch _ _ _ _ E Hrm Hrt) as [Hi Ho].
  unfold cleanup_local_files. destruct st' as [w0 out cs].
  run_monad. cbn [world] in Hi, Ho. rewrite Hi. cbv beta iota zeta.
  rewrite Ho. reflexivity.
Qed.

End Cleanup.

(** ** The further properties at concrete requests *)

Lemma download_failure_ends_request_witness :
  let loaded := body "s3://in/songs/other.wav" "s3://out/stems" "abc" in
  let ev := Download "in" "songs/other.wav" "/tmp/uploads/other.wav"
              (Raised (mkExn "ClientError" "Not Found: in/songs/other.wav")) in
  In ev (calls (final loaded Sim.fresh))
  /\ calls (final loaded Sim.fresh) = [ev].
Proof.
  assert (H : In (Download "in" "songs/other.wav" "/tmp/uploads/other.wav"
                    (Raised (mkExn "ClientError"
                               "Not Found: in/songs/other.wav")))
                 (calls (final (body "s3://in/songs/other.wav"
                                  "s3://out/stems" "abc") Sim.fresh)))
    by (compute_in).
  split; [exact H|].
  exact (proj2 (download_failure_ends_request _ _ _ _ _ _ H)).
Defined.

Lemma non_string_session_id_gives_500_witness :
  let loaded := body_with_session "s3://in/songs/song.wav" "s3://out/stems"
                  (JInt 7) in
  In (Download "in" "songs/song.wav" "/tmp/uploads/song.wav" (Returned tt))
     (calls (final loaded Sim.fresh))
  /\ exists e,
       fspath (JInt 7) = Raised e
       /\ exn_class e = "TypeError"
       /\ response loaded Sim.fresh = Returned (error_response e)
       /\ calls (final loaded Sim.fresh)
          = [Download "in" "songs/song.wav" "/tmp/uploads/song.wav"
               (Returned tt)].
Proof.
  assert (H : In (Download "in" "songs/song.wav" "/tmp/uploads/song.wav"
                    (Returned tt))
                 (calls (final (body_with_session "s3://in/songs/song.wav"
                                  "s3://out/stems" (JInt 7)) Sim.fresh)))
    by compute_in.
  split; [exact H|].
  refine (non_string_session_id_gives_500
            (JObj [("input_s3_uri", JStr "s3://in/songs/song.wav");
                   ("output_s3_prefix", JStr "s3://out/stems");
                   ("session_id", JInt 7)])
            (JInt 7) Sim.fresh
            "in" "songs/song.wav" "/tmp/uploads/song.wav"
            eq_refl _ H).
  intros s. discriminate.
Defined.

Lemma upload_failure_ends_request_witness :
  let w := Sim.with_writable Sim.fresh [] in
  let ev := Upload "/tmp/output/abc/htdemucs/song/vocals.wav" "out"
              "stems/abc/vocals.wav"
              (Raised (mkExn "S3UploadFailedError"
                         ("Failed to upload "
                            ++ "/tmp/output/abc/htdemucs/song/vocals.wav"
                            ++ " to out/stems/abc/vocals.wav"))) in
  In ev (calls (final good_body w))
  /\ hd_error (calls (final good_body w)) = Some ev
  /\ count_kind KUpload (calls (final good_body w)) = 1.
Proof.
  assert (H : In (Upload "/tmp/output/abc/htdemucs/song/vocals.wav" "out"
                    "stems/abc/vocals.wav"
                    (Raised (mkExn "S3UploadFailedError"
                               ("Failed to upload "
                                  ++ "/tmp/output/abc/htdemucs/song/vocals.wav"
                                  ++ " to out/stems/abc/vocals.wav"))))
                 (calls (final good_body (Sim.with_writable Sim.fresh []))))
    by (compute_in).
  split; [exact H|]. split; [|reflexivity].
  exact (proj2 (upload_failure_ends_request _ _ _ _ _ _ H)).
Defined.

Lemma uploads_only_after_tool_success_witness :
  In (Upload "/tmp/output/abc/htdemucs/song/vocals.wav" "out"
        "stems/abc/vocals.wav" (Returned tt))
     (calls (final good_body Sim.fresh))
  /\ exists cmd cp,
       In (Run cmd (Returned cp)) (calls (final good_body Sim.fresh))
       /\ returncode cp = 0%Z.
Proof.
  assert (H : In (Upload "/tmp/output/abc/htdemucs/song/vocals.wav" "out"
                    "stems/abc/vocals.wav" (Returned tt))
                 (calls (final good_body Sim.fresh)))
    by (compute_in).
  split; [exact H|].
  exact (uploads_only_after_tool_success _ _ _ _ _ _ H).
Defined.

Lemma uploads_go_under_output_prefix_witness :
  In (Upload "/tmp/output/abc/htdemucs/song/no_vocals.wav" "out"
        "stems/abc/no_vocals.wav" (Returned tt))
     (calls (final (body "s3://in/songs/song.wav" "s3://out/stems//" "abc")
               Sim.fresh))
  /\ parse_s3_uri (JStr "s3://out/stems//") = Returned ("out", "stems//")
  /\ Py.str_rstrip "/" "stems//" ++ "/" ++ "abc" ++ "/" ++ "no_vocals.wav"
     = "stems/abc/no_vocals.wav".
Proof.
  assert (H : In (Upload "/tmp/output/abc/htdemucs/song/no_vocals.wav" "out"
                    "stems/abc/no_vocals.wav" (Returned tt))
                 (calls (final (body "s3://in/songs/song.wav"
                                  "s3://out/stems//" "abc") Sim.fresh)))
    by (compute_in).
  split; [exact H|]. split; [reflexivity|].
  destruct (uploads_go_under_output_prefix
              (body_object "s3://in/songs/song.wav" "s3://out/stems//" "abc")
              (JStr "s3://out/stems//")
              Sim.fresh "out" "stems//" "abc" _ _ _ _
              eq_refl eq_refl eq_refl H)
    as (_ & dir & names & name & _ & _ & _ & Hk).
  reflexivity.
Defined.

Lemma deletions_only_on_success_witness :
  In (Remove "/tmp/uploads/song.wav" (Returned tt))
     (calls (final good_body Sim.fresh))
  /\ status good_body Sim.fresh = 200%Z.
Proof.
  assert (H : In (Remove "/tmp/uploads/song.wav" (Returned tt))
                 (calls (final good_body Sim.fresh)))
    by (compute_in).
  split; [exact H|].
  exact (proj1 (deletions_only_on_success _ _ _ _ (or_introl H))).
Defined.

Lemma deletions_touch_scratch_only_witness :
  In (Rmtree "/tmp/output/abc" (Returned tt))
     (calls (final good_body Sim.fresh))
  /\ (forall p r, In (Remove p r) (calls (final good_body Sim.fresh)) ->
                  p = Py.os_path_join UPLOAD_DIR
                        [Py.os_path_basename "songs/song.wav"])
  /\ (forall p r, In (Rmtree p r) (calls (final good_body Sim.fresh)) ->
                  p = Py.os_path_join OUTPUT_DIR ["abc"]).
Proof.
  split; [compute_in|].
  exact (deletions_touch_scratch_only
           (body_object "s3://in/songs/song.wav" "s3://out/stems" "abc")
           (JStr "s3://in/songs/song.wav")
           Sim.fresh "in" "songs/song.wav" "abc" eq_refl eq_refl eq_refl).
Defined.

Lemma download_target_stays_in_upload_dir_witness :
  let loaded := body "s3://in/a/b/../song.wav" "s3://out/stems" "abc" in
  let ev := Download "in" "a/b/../song.wav" "/tmp/uploads/song.wav"
              (Raised (mkExn "ClientError" "Not Found: in/a/b/../song.wav")) in
  In ev (calls (final loaded Sim.fresh))
  /\ exists name,
       Py.str_mem "/" name = false
       /\ "/tmp/uploads/song.wav" = "/tmp/uploads/" ++ name.
Proof.
  assert (H : In (Download "in" "a/b/../song.wav" "/tmp/uploads/song.wav"
                    (Raised (mkExn "ClientError"
                               "Not Found: in/a/b/../song.wav")))
                 (calls (final (body "s3://in/a/b/../song.wav"
                                  "s3://out/stems" "abc") Sim.fresh)))
    by (compute_in).
  split; [exact H|].
  exact (download_target_stays_in_upload_dir _ _ _ _ _ _ H).
Defined.

Lemma first_call_is_the_download_witness :
  In (Rmtree "/tmp/output/abc" (Returned tt))
     (calls (final good_body Sim.fresh))
  /\ exists b k p r,
       hd_error (history good_body Sim.fresh) = Some (Download b k p r).
Proof.
  assert (H : In (Rmtree "/tmp/output/abc" (Returned tt))
                 (calls (final good_body Sim.fresh)))
    by (compute_in).
  split; [exact H|].
  exact (first_call_is_the_download _ _ _ H).
Defined.

Lemma absolute_session_id_leaves_output_dir_witness :
  let loaded := body "s3://in/songs/song.wav" "s3://out/stems" "/srv/data" in
  Py.startswith "/" "/srv/data" = true
  /\ In (Rmtree "/srv/data" (Returned tt)) (calls (final loaded Sim.fresh))
  /\ (forall p r, In (Makedirs p r) (calls (final loaded Sim.fresh)) ->
                  p = "/srv/data")
  /\ (forall p r, In (Rmtree p r) (calls (final loaded Sim.fresh)) ->
                  p = "/srv/data").
Proof.
  split; [reflexivity|]. split; [compute_in|].
  exact (absolute_session_id_leaves_output_dir
           (body_object "s3://in/songs/song.wav" "s3://out/stems" "/srv/data")
           Sim.fresh "/srv/data"
           eq_refl eq_refl).
Defined.

Lemma session_id_defaults_to_default_witness :
  dict_lookup "session_id" body_without_session = None
  /\ In (Makedirs "/tmp/output/default" (Returned tt))
        (calls (final (Returned (JObj body_without_session)) Sim.fresh))
  /\ (forall p r,
        In (Makedirs p r)
           (calls (final (Returned (JObj body_without_session)) Sim.fresh)) ->
        p = "/tmp/output/default")
  /\ (forall body,
        response (Returned (JObj body_without_session)) Sim.fresh
        = Returned (body, 200%Z) ->
        exists files,
          body = JObj [("status", JStr "success");
                       ("session_id", JStr "default");
                       ("output_files", JArr files)]).
Proof.
  split; [reflexivity|]. split; [compute_in|].
  exact (session_id_defaults_to_default body_without_session Sim.fresh
           eq_refl).
Defined.

Lemma listed_files_are_reported_witness :
  In (Listdir "/tmp/output/abc/htdemucs/song"
        (Returned ["vocals.wav"; "no_vocals.wav"]))
     (calls (final good_body Sim.fresh))
  /\ response good_body Sim.fresh
     = Returned (JObj [("status", JStr "success");
                       ("session_id", JStr "abc");
                       ("output_files",
                        JArr (map (stem_entry "out" "stems" "abc")
                                ["vocals.wav"; "no_vocals.wav"]))], 200%Z)
  /\ count_kind KUpload (calls (final good_body Sim.fresh)) = 2.
Proof.
  assert (H : In (Listdir "/tmp/output/abc/htdemucs/song"
                    (Returned ["vocals.wav"; "no_vocals.wav"]))
                 (calls (final good_body Sim.fresh)))
    by (compute_in).
  split; [exact H|].
  refine (listed_files_are_reported
            (body_object "s3://in/songs/song.wav" "s3://out/stems" "abc")
            (JStr "s3://out/stems") Sim.fresh
            "out" "stems" "abc" _ _ eq_refl eq_refl eq_refl H _).
  clear H. vm_compute. intros p b k r Hu.
  repeat (destruct Hu as [Hu | Hu];
          [try discriminate Hu; injection Hu as _ _ _ <-; reflexivity|]).
  destruct Hu.
Defined.

Lemma missing_output_dir_gives_500_witness :
  let d := [("input_s3_uri", JStr "s3://in/songs/song.wav");
            ("output_s3_prefix", JStr "s3://out/stems");
            ("session_id", JStr "abc")] in
  os_path_exists (Platform := silent_platform)
    (separated_dir "abc" "songs/song.wav")
    (final (P := silent_platform) (Returned (JObj d)) Sim.fresh).(world)
  = false
  /\ response (P := silent_platform) (Returned (JObj d)) Sim.fresh
     = Returned
         (error_response (P := silent_platform)
            (RuntimeError "Output not found. Demucs path may be wrong."))
  /\ map kind_of (history (P := silent_platform) (Returned (JObj d)) Sim.fresh)
     = [KDownload; KMakedirs; KRun; KExists].
Proof.
  split; [reflexivity|].
  destruct (missing_output_dir_gives_500 (P := silent_platform)
              [("input_s3_uri", JStr "s3://in/songs/song.wav");
               ("output_s3_prefix", JStr "s3://out/stems");
               ("session_id", JStr "abc")]
              (JStr "s3://in/songs/song.wav") (JStr "s3://out/stems")
              Sim.fresh _ _ _ "in" "songs/song.wav" "out" "stems" "abc"
              (mkCompleted 0 EmptyString EmptyString)
              eq_refl eq_refl eq_refl eq_refl eq_refl eq_refl eq_refl
              eq_refl eq_refl eq_refl eq_refl eq_refl)
    as (Hr & _ & Hh).
  split; [exact Hr|]. rewrite Hh. reflexivity.
Defined.

Lemma errors_are_printed_witness :
  let w := Sim.with_tool Sim.fresh 1 "CUDA out of memory" in
  exists body,
    response good_body w = Returned (body, 500%Z)
    /\ exists e,
         body = JObj [("error",
                       JStr ("Error: " ++ exn_str e ++ nl
                               ++ traceback_format_exc e))]
         /\ In ("Error: " ++ exn_str e ++ nl ++ traceback_format_exc e)
               (stdout (final good_body w)).
Proof.
  assert (H : response good_body
                (Sim.with_tool Sim.fresh 1 "CUDA out of memory")
              = Returned
                  (fst (error_response
                          (RuntimeError
                             ("Demucs failed" ++ nl ++ "CUDA out of memory"))),
                   500%Z))
    by (vm_compute; reflexivity).
  eexists. split; [exact H|].
  exact (errors_are_printed _ _ _ H).
Defined.

Lemma status_400_iff_field_missing_or_falsy_witness :
  let d := [("input_s3_uri", JStr "s3://in/songs/song.wav");
            ("output_s3_prefix", JArr [])] in
  py_get (JObj d) "output_s3_prefix" JNull = Returned (JArr [])
  /\ (status (Returned (JObj d)) Sim.fresh = 400%Z
      <-> truthy (JStr "s3://in/songs/song.wav") = false
          \/ truthy (JArr []) = false).
Proof.
  split; [reflexivity|].
  exact (status_400_iff_field_missing_or_falsy
           [("input_s3_uri", JStr "s3://in/songs/song.wav");
            ("output_s3_prefix", JArr [])]
           (JStr "s3://in/songs/song.wav") (JArr []) Sim.fresh
           eq_refl eq_refl).
Defined.

Lemma body_that_is_no_object_gives_500_witness :
  exists e,
    serve (Returned (JArr [JInt 1])) Sim.fresh
    = (mkState Sim.fresh [error_message e] [], Returned (error_response e))
    /\ (forall e', Returned (JArr [JInt 1]) = Raised e' -> e = e')
    /\ (forall v, Returned (JArr [JInt 1]) = Returned v ->
                  e = AttributeError v "get").
Proof.
  apply (body_that_is_no_object_gives_500 (Returned (JArr [JInt 1]))
           Sim.fresh).
  intros d. discriminate.
Defined.

Lemma non_string_uri_gives_500_witness :
  let d := [("input_s3_uri", JInt 5);
            ("output_s3_prefix", JStr "s3://out/stems")] in
  truthy (JInt 5) = true
  /\ serve (Returned (JObj d)) Sim.fresh
     = (mkState Sim.fresh [error_message (AttributeError (JInt 5) "replace")]
          [],
        Returned (error_response (AttributeError (JInt 5) "replace"))).
Proof.
  split; [reflexivity|].
  apply (non_string_uri_gives_500
           [("input_s3_uri", JInt 5);
            ("output_s3_prefix", JStr "s3://out/stems")]
           (JInt 5) (JStr "s3://out/stems") (JInt 5) Sim.fresh);
    try reflexivity.
  - intros s. discriminate.
  - now left.
Defined.

Lemma parse_s3_uri_splits_at_first_separator_witness :
  parse_s3_uri (JStr "s3://bucket/path/to/object.wav")
  = Returned ("bucket", "path/to/object.wav")
  /\ Py.str_mem "/" "bucket" = false
  /\ Py.str_replace "s3://" EmptyString "s3://bucket/path/to/object.wav"
     = "bucket" ++ "/" ++ "path/to/object.wav".
Proof.
  split; [reflexivity|].
  exact (parse_s3_uri_splits_at_first_separator
           "s3://bucket/path/to/object.wav" "bucket" "path/to/object.wav"
           eq_refl).
Defined.

Lemma parse_s3_uri_clean_witness :
  Py.str_mem "/" "bucket" = false
  /\ parse_s3_uri (JStr ("s3://" ++ "bucket" ++ "/" ++ "path/to/object.wav"))
     = Returned ("bucket", "path/to/object.wav").
Proof.
  split; [reflexivity|].
  apply (parse_s3_uri_clean "bucket" "path/to/object.wav"); [reflexivity|].
  intros O. apply occurs_scheme_shortens in O. vm_compute in O. lia.
Defined.

Lemma cleanup_with_nothing_to_delete_witness :
  cleanup_local_files "/tmp/uploads/song.wav" "/tmp/output/abc"
    (start Sim.fresh)
  = (mkState Sim.fresh ["Cleaned up local files"]
       [Exists "/tmp/output/abc" false;
        Exists "/tmp/uploads/song.wav" false],
     Returned tt).
Proof.
  exact (cleanup_with_nothing_to_delete "/tmp/uploads/song.wav"
           "/tmp/output/abc" (start Sim.fresh) eq_refl eq_refl).
Defined.

Lemma cleanup_stops_at_failed_remove_witness :
  let w := used_disk ["/tmp/uploads/song.wav"] in
  let e := mkExn "PermissionError"
             "Permission denied: /tmp/uploads/song.wav" in
  os_path_exists "/tmp/output/abc" w = true
  /\ cleanup_local_files "/tmp/uploads/song.wav" "/tmp/output/abc" (start w)
     = (mkState w ["Cleanup failed: " ++ exn_str e]
          [Remove "/tmp/uploads/song.wav" (Raised e);
           Exists "/tmp/uploads/song.wav" true],
        Returned tt).
Proof.
  split; [reflexivity|].
  exact (cleanup_stops_at_failed_remove "/tmp/uploads/song.wav"
           "/tmp/output/abc" (start (used_disk ["/tmp/uploads/song.wav"]))
           _ _ eq_refl eq_refl).
Defined.

Lemma second_cleanup_deletes_nothing_witness :
  let first := cleanup_local_files "/tmp/uploads/song.wav" "/tmp/output/abc"
                 (start (used_disk [])) in
  map kind_of (calls (fst first)) = [KRmtree; KExists; KRemove; KExists]
  /\ cleanup_local_files "/tmp/uploads/song.wav" "/tmp/output/abc" (fst first)
     = (mkState (world (fst first))
          ("Cleaned up local files" :: stdout (fst first))
          (Exists "/tmp/output/abc" false
             :: Exists "/tmp/uploads/song.wav" false :: calls (fst first)),
        Returned tt).
Proof.
  split; [reflexivity|].
  apply (second_cleanup_deletes_nothing (L := sim_disk_laws)
           "/tmp/uploads/song.wav" "/tmp/output/abc" (start (used_disk []))).
  - reflexivity.
  - intros p e. vm_compute. intuition discriminate.
  - intros p e. vm_compute. intuition discriminate.
Defined.

Lemma tool_command_is_fixed_witness :
  let w := Sim.with_tool Sim.fresh 1 "CUDA out of memory" in
  let cmd := ["/usr/bin/python3"; "-m"; "demucs.separate"; "-n"; "htdemucs";
              "--two-stems"; "vocals"; "--name"; "htdemucs";
              "-o"; "/tmp/output/abc"; "/tmp/uploads/song.wav"] in
  In (Run cmd (Returned (mkCompleted 1 EmptyString "CUDA out of memory")))
     (calls (final good_body w))
  /\ exists session_dir name,
       Py.str_mem "/" name = false
       /\ cmd = [sys_executable; "-m"; "demucs.separate";
                 "-n"; "htdemucs"; "--two-stems"; "vocals";
                 "--name"; "htdemucs";
                 "-o"; Py.os_path_join OUTPUT_DIR [session_dir];
                 "/tmp/uploads/" ++ name].
Proof.
  assert (H : In (Run ["/usr/bin/python3"; "-m"; "demucs.separate"; "-n";
                       "htdemucs"; "--two-stems"; "vocals"; "--name";
                       "htdemucs"; "-o"; "/tmp/output/abc";
                       "/tmp/uploads/song.wav"]
                    (Returned
                       (mkCompleted 1 EmptyString "CUDA out of memory")))
                 (calls (final good_body
                           (Sim.with_tool Sim.fresh 1 "CUDA out of memory"))))
    by compute_in.
  split; [exact H|].
  exact (tool_command_is_fixed _ _ _ _ H).
Defined.
(** ** The string functions on examples *)

Example replace_ex1 :
  Py.str_replace "s3://" EmptyString "s3://bucket/a/b.wav" = "bucket/a/b.wav".
Proof. reflexivity. Qed.
Example replace_ex2 :
  Py.str_replace "s3://" EmptyString "s3:s3:////x" = "s3://x".
Proof. reflexivity. Qed.
Example split_ex1 : Py.str_split1 "/" "bucket/a/b.wav" = ["bucket"; "a/b.wav"].
Proof. reflexivity. Qed.
Example split_ex2 : Py.str_split1 "/" "bucket" = ["bucket"].
Proof. reflexivity. Qed.
Example rstrip_ex : Py.str_rstrip "/" "a/b//" = "a/b".
Proof. reflexivity. Qed.
Example basename_ex : Py.os_path_basename "a/b/song.wav" = "song.wav".
Proof. reflexivity. Qed.
Example basename_ex2 : Py.os_path_basename "a/b/" = EmptyString.
Proof. reflexivity. Qed.
Example join_ex :
  Py.os_path_join "/tmp/output" ["htdemucs"; "song"]
  = "/tmp/output/htdemucs/song".
Proof. reflexivity. Qed.
Example join_ex2 : Py.os_path_join "/tmp/output" ["/etc"] = "/etc".
Proof. reflexivity. Qed.
Example join_ex3 : Py.os_path_join "/tmp/output/" ["x"] = "/tmp/output/x".
Proof. reflexivity. Qed.
Example stem_ex : Py.path_stem "song.final.wav" = "song.final".
Proof. reflexivity. Qed.
Example stem_ex2 : Py.path_stem ".bashrc" = ".bashrc".
Proof. reflexivity. Qed.
Example stem_ex3 : Py.path_stem EmptyString = EmptyString.
Proof. reflexivity. Qed.
Example stem_ex4 : Py.path_stem "a." = "a.".
Proof. reflexivity. Qed.
